(** * Provenance: metadata store, write path and lineage resolver

    Shallow embedding of [src/provenance.py] (class [Provenance]).  The
    benchmark script [src/prov_measurements.py] supplies the calls of one
    scenario below; the earlier prototype [src/myprov_09sep2022.py] is a
    separate script and is not modelled.

    Conventions of the embedding.
    - A Python [str] is a [string]; an optional keyword argument or a
      nullable column is an [option string], [None] being Python's [None]
      (SQL [NULL]).  Arguments that the signatures make mandatory ([id],
      [name], [source], [destination], and the five arguments of
      [make_provenance]) are plain strings.
    - A table is the list of its rows in insertion order; the primary key
      of a row is its position counted from 1, as SQLite's rowid is for a
      table that is only ever appended to.
    - A model instance held by Python code is represented by its primary
      key.
    - The four references of a data element to a script, an owner, a
      governance record and a steward accept [NULL], and so do the text
      columns filled from optional arguments: [add_definition] passes
      [None] for them ("it's ok, if some attributes are undefined, we just
      don't create the corresponding models").
    - [get_provenance] is recursive without a structural argument; the
      embedding bounds the nesting depth of the recursion by a [fuel]
      argument and returns [None] when the bound is hit. *)

From stdpp Require Import base option list strings gmap.
From Stdlib Require Import Ascii Lia.
From Stdlib Require DecimalString DecimalNat.

(** ** Python values *)

(** Truth value of a [str]-or-[None] expression in a condition. *)
Definition truthy (v : option string) : bool :=
  match v with
  | None => false
  | Some EmptyString => false
  | Some (String _ _) => true
  end.

(** [a if a else b]. *)
Definition if_else (a b : option string) : option string :=
  if truthy a then a else b.

(** Interpolation [{v}] of a [str]-or-[None] value in an f-string. *)
Definition fmt (v : option string) : string :=
  match v with
  | None => "None"
  | Some s => s
  end.

Definition nl : string := String "010"%char EmptyString.
Definition dq : string := String "034"%char EmptyString.
Definition bsl : string := String "092"%char EmptyString.

(** ** The peewee models *)

Module DataOwner.
Record t := mk
  { name : option string; role : option string;
    type : option string; department : option string }.
#[global] Instance DataOwner_eq_dec : EqDecision t.
Proof. solve_decision. Defined.
End DataOwner.

Module DataSteward.
Record t := mk
  { name : option string; role : option string;
    type : option string; department : option string }.
#[global] Instance DataSteward_eq_dec : EqDecision t.
Proof. solve_decision. Defined.
End DataSteward.

Module DataGovernance.
Record t := mk
  { name : option string; version : option string; status : option string }.
#[global] Instance DataGovernance_eq_dec : EqDecision t.
Proof. solve_decision. Defined.
End DataGovernance.

Module DataStore.
Record t := mk { name : string }.
#[global] Instance DataStore_eq_dec : EqDecision t.
Proof. solve_decision. Defined.
End DataStore.

Module Script.
Record t := mk
  { name : option string; version : option string; creator : option string }.
#[global] Instance Script_eq_dec : EqDecision t.
Proof. solve_decision. Defined.
End Script.

Module DataElement.
Record t := mk
  { name : string;
    description : option string;
    source : nat;
    source_variable : option string;
    destination : nat;
    destination_variable : option string;
    description_of_transformation : option string;
    description_of_qualitycheck : option string;
    script : option nat;
    status_log : option string;
    owner : option nat;
    governance : option nat;
    steward : option nat }.
#[global] Instance DataElement_eq_dec : EqDecision t.
Proof. solve_decision. Defined.
End DataElement.

Module DataProvenance.
Record t := mk
  { dataelement : nat;
    sourcereference : string;
    destinationreference : string;
    quality : string;
    timestamp : string }.
#[global] Instance DataProvenance_eq_dec : EqDecision t.
Proof. solve_decision. Defined.
End DataProvenance.

(** ** The entity store *)

(** Row of a table with primary key [pk]. *)
Definition row_at {A} (tbl : list A) (pk : nat) : option A :=
  match pk with
  | 0 => None
  | S i => tbl !! i
  end.

(** Primary key of the first row equal to [row], if any. *)
Fixpoint find_row `{EqDecision A} (tbl : list A) (row : A) : option nat :=
  match tbl with
  | [] => None
  | r :: tbl' =>
      if decide (r = row) then Some 1
      else S <$> find_row tbl' row
  end.

(** Modelled from the spec: peewee's [Model.get_or_create] is library code
    outside the repository; this follows the contract of the entity store:
    the existing record is returned when one with identical fields exists,
    otherwise the record is inserted.  The result is the table, the
    primary key of the record and the [created] flag.  A [None] field is
    compared as SQL [IS NULL], so it matches a row whose column is
    unset. *)
Definition get_or_create `{EqDecision A} (tbl : list A) (row : A)
  : list A * nat * bool :=
  match find_row tbl row with
  | Some pk => (tbl, pk, false)
  | None => (tbl ++ [row], S (length tbl), true)
  end.

Record Database := mkDatabase
  { DataOwner_rows : list DataOwner.t;
    DataSteward_rows : list DataSteward.t;
    DataGovernance_rows : list DataGovernance.t;
    Script_rows : list Script.t;
    DataStore_rows : list DataStore.t;
    DataElement_rows : list DataElement.t;
    DataProvenance_rows : list DataProvenance.t }.

(** [create_tables] on a fresh database file. *)
Definition empty_db : Database := mkDatabase [] [] [] [] [] [] [].

(** [Model.get_or_create] on each table of the bound database; the
    [created] flag is dropped, as every caller does. *)
Definition DataOwner_get_or_create (d : Database) (row : DataOwner.t)
  : Database * nat :=
  let '(rows, pk, _) := get_or_create (DataOwner_rows d) row in
  (mkDatabase rows (DataSteward_rows d) (DataGovernance_rows d)
     (Script_rows d) (DataStore_rows d) (DataElement_rows d)
     (DataProvenance_rows d), pk).

Definition DataSteward_get_or_create (d : Database) (row : DataSteward.t)
  : Database * nat :=
  let '(rows, pk, _) := get_or_create (DataSteward_rows d) row in
  (mkDatabase (DataOwner_rows d) rows (DataGovernance_rows d)
     (Script_rows d) (DataStore_rows d) (DataElement_rows d)
     (DataProvenance_rows d), pk).

Definition DataGovernance_get_or_create (d : Database)
  (row : DataGovernance.t) : Database * nat :=
  let '(rows, pk, _) := get_or_create (DataGovernance_rows d) row in
  (mkDatabase (DataOwner_rows d) (DataSteward_rows d) rows
     (Script_rows d) (DataStore_rows d) (DataElement_rows d)
     (DataProvenance_rows d), pk).

Definition Script_get_or_create (d : Database) (row : Script.t)
  : Database * nat :=
  let '(rows, pk, _) := get_or_create (Script_rows d) row in
  (mkDatabase (DataOwner_rows d) (DataSteward_rows d)
     (DataGovernance_rows d) rows (DataStore_rows d) (DataElement_rows d)
     (DataProvenance_rows d), pk).

Definition DataStore_get_or_create (d : Database) (row : DataStore.t)
  : Database * nat :=
  let '(rows, pk, _) := get_or_create (DataStore_rows d) row in
  (mkDatabase (DataOwner_rows d) (DataSteward_rows d)
     (DataGovernance_rows d) (Script_rows d) rows (DataElement_rows d)
     (DataProvenance_rows d), pk).

Definition DataElement_get_or_create (d : Database) (row : DataElement.t)
  : Database * nat :=
  let '(rows, pk, _) := get_or_create (DataElement_rows d) row in
  (mkDatabase (DataOwner_rows d) (DataSteward_rows d)
     (DataGovernance_rows d) (Script_rows d) (DataStore_rows d) rows
     (DataProvenance_rows d), pk).

Definition DataProvenance_get_or_create (d : Database)
  (row : DataProvenance.t) : Database * nat :=
  let '(rows, pk, _) := get_or_create (DataProvenance_rows d) row in
  (mkDatabase (DataOwner_rows d) (DataSteward_rows d)
     (DataGovernance_rows d) (Script_rows d) (DataStore_rows d)
     (DataElement_rows d) rows, pk).

(** ** The [Provenance] object *)

Record Provenance := mkProvenance
  { db : Database;
    list_of_dataelements : gmap string nat;
    global_script_name : option string;
    global_script_version : option string;
    global_script_creator : option string;
    global_sop_name : option string;
    global_sop_version : option string;
    global_sop_status : option string;
    global_owner_name : option string;
    global_owner_role : option string;
    global_owner_type : option string;
    global_owner_department : option string;
    global_steward_name : option string;
    global_steward_role : option string;
    global_steward_type : option string;
    global_steward_department : option string }.

(** [__init__] on a database file that does not exist yet. *)
Definition init : Provenance :=
  mkProvenance empty_db ∅
    None None None None None None None None None None None None None None.

Definition add_script_definition (self : Provenance)
  (script_name script_version script_creator : option string) : Provenance :=
  mkProvenance (db self) (list_of_dataelements self)
    script_name script_version script_creator
    (global_sop_name self) (global_sop_version self) (global_sop_status self)
    (global_owner_name self) (global_owner_role self)
    (global_owner_type self) (global_owner_department self)
    (global_steward_name self) (global_steward_role self)
    (global_steward_type self) (global_steward_department self).

Definition add_governance_definition (self : Provenance)
  (sop_name sop_version sop_status : option string) : Provenance :=
  mkProvenance (db self) (list_of_dataelements self)
    (global_script_name self) (global_script_version self)
    (global_script_creator self)
    sop_name sop_version sop_status
    (global_owner_name self) (global_owner_role self)
    (global_owner_type self) (global_owner_department self)
    (global_steward_name self) (global_steward_role self)
    (global_steward_type self) (global_steward_department self).

Definition add_owner_definition (self : Provenance)
  (owner_name owner_role owner_type owner_department : option string)
  : Provenance :=
  mkProvenance (db self) (list_of_dataelements self)
    (global_script_name self) (global_script_version self)
    (global_script_creator self)
    (global_sop_name self) (global_sop_version self) (global_sop_status self)
    owner_name owner_role owner_type owner_department
    (global_steward_name self) (global_steward_role self)
    (global_steward_type self) (global_steward_department self).

Definition add_steward_definition (self : Provenance)
  (steward_name steward_role steward_type steward_department : option string)
  : Provenance :=
  mkProvenance (db self) (list_of_dataelements self)
    (global_script_name self) (global_script_version self)
    (global_script_creator self)
    (global_sop_name self) (global_sop_version self) (global_sop_status self)
    (global_owner_name self) (global_owner_role self)
    (global_owner_type self) (global_owner_department self)
    steward_name steward_role steward_type steward_department.

(** Replaces the database and the registry, keeping the defaults. *)
Definition with_store (self : Provenance) (d : Database)
  (reg : gmap string nat) : Provenance :=
  mkProvenance d reg
    (global_script_name self) (global_script_version self)
    (global_script_creator self)
    (global_sop_name self) (global_sop_version self) (global_sop_status self)
    (global_owner_name self) (global_owner_role self)
    (global_owner_type self) (global_owner_department self)
    (global_steward_name self) (global_steward_role self)
    (global_steward_type self) (global_steward_department self).

(** Keyword arguments of [add_definition]. *)
Module Kw.
Record t := mk
  { id : string;
    name : string;
    description : option string;
    source : string;
    source_variable : option string;
    destination : string;
    destination_variable : option string;
    description_of_transformation : option string;
    description_of_qualitycheck : option string;
    script_name : option string;
    script_version : option string;
    script_creator : option string;
    status_log : option string;
    owner_name : option string;
    owner_role : option string;
    owner_type : option string;
    owner_department : option string;
    steward_name : option string;
    steward_role : option string;
    steward_type : option string;
    steward_department : option string;
    sop_name : option string;
    sop_version : option string;
    sop_status : option string }.
End Kw.

Definition add_definition (self : Provenance) (kw : Kw.t) : Provenance :=
  let combined_owner_name := if_else (Kw.owner_name kw) (global_owner_name self) in
  let combined_owner_role := if_else (Kw.owner_role kw) (global_owner_role self) in
  let combined_owner_type := if_else (Kw.owner_type kw) (global_owner_type self) in
  let combined_owner_department :=
    if_else (Kw.owner_department kw) (global_owner_department self) in
  let combined_steward_name :=
    if_else (Kw.steward_name kw) (global_steward_name self) in
  let combined_steward_role :=
    if_else (Kw.steward_role kw) (global_steward_role self) in
  let combined_steward_type :=
    if_else (Kw.steward_type kw) (global_steward_type self) in
  let combined_steward_department :=
    if_else (Kw.steward_department kw) (global_steward_department self) in
  let combined_sop_name := if_else (Kw.sop_name kw) (global_sop_name self) in
  let combined_sop_version :=
    if_else (Kw.sop_version kw) (global_sop_version self) in
  let combined_sop_status :=
    if_else (Kw.sop_status kw) (global_sop_status self) in
  let combined_script_name :=
    if_else (Kw.script_name kw) (global_script_name self) in
  let combined_script_version :=
    if_else (Kw.script_version kw) (global_script_version self) in
  let combined_script_creator :=
    if_else (Kw.script_creator kw) (global_script_creator self) in
  let d := db self in
  let '(d, owner) :=
    if truthy combined_owner_name || truthy combined_owner_role
       || truthy combined_owner_type || truthy combined_owner_department
    then
      let '(d, pk) :=
        DataOwner_get_or_create d
          (DataOwner.mk combined_owner_name combined_owner_role
             combined_owner_type combined_owner_department) in
      (d, Some pk)
    else (d, None) in
  let '(d, steward) :=
    if truthy combined_steward_name || truthy combined_steward_role
       || truthy combined_steward_type || truthy combined_steward_department
    then
      let '(d, pk) :=
        DataSteward_get_or_create d
          (DataSteward.mk combined_steward_name combined_steward_role
             combined_steward_type combined_steward_department) in
      (d, Some pk)
    else (d, None) in
  let '(d, governance) :=
    if truthy combined_sop_name || truthy combined_sop_version
       || truthy combined_sop_status
    then
      let '(d, pk) :=
        DataGovernance_get_or_create d
          (DataGovernance.mk combined_sop_name combined_sop_version
             combined_sop_status) in
      (d, Some pk)
    else (d, None) in
  let '(d, script) :=
    if truthy combined_script_name || truthy combined_script_version
       || truthy combined_script_creator
    then
      let '(d, pk) :=
        Script_get_or_create d
          (Script.mk combined_script_name combined_script_version
             combined_script_creator) in
      (d, Some pk)
    else (d, None) in
  let '(d, source) := DataStore_get_or_create d (DataStore.mk (Kw.source kw)) in
  let '(d, destination) :=
    DataStore_get_or_create d (DataStore.mk (Kw.destination kw)) in
  let '(d, dataelement) :=
    DataElement_get_or_create d
      (DataElement.mk (Kw.name kw) (Kw.description kw)
         source (Kw.source_variable kw)
         destination (Kw.destination_variable kw)
         (Kw.description_of_transformation kw)
         (Kw.description_of_qualitycheck kw)
         script (Kw.status_log kw) owner governance steward) in
  with_store self d (<[Kw.id kw := dataelement]> (list_of_dataelements self)).

(** Exceptions raised by the repository's own code. *)
Inductive exn :=
  | KeyError (key : string).


Inductive result (A : Type) :=
  | Return (a : A)
  | Raise (e : exn).
Arguments Return {A} a.
Arguments Raise {A} e.

(** The registry subscript [self.__list_of_dataelements[name]] is evaluated
    before [get_or_create] is entered, so a missing key leaves the
    database as it was. *)
Definition make_provenance (self : Provenance)
  (name sourcereference destinationreference quality timestamp : string)
  : result Provenance :=
  match list_of_dataelements self !! name with
  | None => Raise (KeyError name)
  | Some dataelement =>
      let '(d, _) :=
        DataProvenance_get_or_create (db self)
          (DataProvenance.mk dataelement sourcereference destinationreference
             quality timestamp) in
      Return (with_store self d (list_of_dataelements self))
  end.

(** ** Format renderers *)

Definition _format_provenance_logtext
  (source_name : string) (source_variable : option string)
  (source_reference : string) (script_name script_version : option string)
  (destination_name : string) (destination_variable : option string)
  (destination_reference : string) (steward_name steward_role : option string)
  : string :=
  (source_name +:+ " " +:+ fmt source_variable +:+ " "
     +:+ source_reference +:+ " ")
  +:+ ("was converted by " +:+ fmt script_name +:+ " "
         +:+ fmt script_version +:+ " ")
  +:+ ("to " +:+ destination_name +:+ " " +:+ fmt destination_variable
         +:+ " " +:+ destination_reference +:+ " ")
  +:+ ("by " +:+ fmt steward_name +:+ " " +:+ fmt steward_role +:+ nl).

Definition _format_provenance_mermaid_flow
  (source_name : string) (source_variable : option string)
  (source_reference : string) (script_name script_version : option string)
  (destination_name : string) (destination_variable : option string)
  (destination_reference : string) (steward_name steward_role : option string)
  : string :=
  ("    " +:+ source_name +:+ "." +:+ fmt source_variable +:+ "."
     +:+ source_reference)
  +:+ ("--> |" +:+ fmt script_name +:+ ". " +:+ fmt script_version +:+ "  "
         +:+ fmt steward_name +:+ "." +:+ fmt steward_role +:+ "| ")
  +:+ (destination_name +:+ "." +:+ fmt destination_variable +:+ "."
         +:+ destination_reference +:+ nl).

Definition _format_provenance_mermaid_w3cprov
  (source_name : string) (source_variable : option string)
  (source_reference : string) (script_name script_version : option string)
  (destination_name : string) (destination_variable : option string)
  (destination_reference : string) (steward_name steward_role : option string)
  : string :=
  ("    A['" +:+ fmt script_name +:+ "''" +:+ fmt script_version
     +:+ "'] -->|used| B(['" +:+ source_name +:+ "''"
     +:+ fmt source_variable +:+ "''" +:+ source_reference +:+ "'])" +:+ nl)
  +:+ ("    C(['" +:+ destination_name +:+ "''" +:+ fmt destination_variable
         +:+ "''" +:+ destination_reference
         +:+ "']) -->|was generated by| A['" +:+ fmt script_name +:+ "''"
         +:+ fmt script_version +:+ "']" +:+ nl)
  +:+ ("    A['" +:+ fmt script_name +:+ "''" +:+ fmt script_version
         +:+ "'] -.->|was associated with| D[/'" +:+ fmt steward_name
         +:+ "'" +:+ fmt steward_role +:+ bsl +:+ "] " +:+ nl)
  +:+ ("    C(['" +:+ destination_name +:+ "''" +:+ fmt destination_variable
         +:+ "''" +:+ destination_reference
         +:+ "'])  -->|was derived from| B(['" +:+ source_name +:+ "''"
         +:+ fmt source_variable +:+ "''" +:+ source_reference +:+ "'])"
         +:+ nl).

(** *** JSON values and [json.dump(..., indent=4)]

    A character is an 8-bit code point, so the encoder below is Python's
    ASCII-only string encoder on code points below 256. *)

#[local] Unset Elimination Schemes.
Inductive json :=
  | JNull
  | JInt (n : nat)
  | JStr (s : string)
  | JArr (items : list json)
  | JObj (members : list (string * json)).
#[local] Set Elimination Schemes.

Definition hex_digit (n : nat) : ascii :=
  match n with
  | 0 => "0" | 1 => "1" | 2 => "2" | 3 => "3" | 4 => "4" | 5 => "5"
  | 6 => "6" | 7 => "7" | 8 => "8" | 9 => "9" | 10 => "a" | 11 => "b"
  | 12 => "c" | 13 => "d" | 14 => "e" | _ => "f"
  end%char.

Definition json_escape_char (c : ascii) : string :=
  let n := nat_of_ascii c in
  if decide (n = 34) then bsl +:+ dq
  else if decide (n = 92) then bsl +:+ bsl
  else if decide (n = 8) then bsl +:+ "b"
  else if decide (n = 12) then bsl +:+ "f"
  else if decide (n = 10) then bsl +:+ "n"
  else if decide (n = 13) then bsl +:+ "r"
  else if decide (n = 9) then bsl +:+ "t"
  else if decide (32 ≤ n ≤ 126) then String c EmptyString
  else bsl +:+ "u00"
       +:+ String (hex_digit (n / 16)) (String (hex_digit (n mod 16)) EmptyString).

Fixpoint json_escape (s : string) : string :=
  match s with
  | EmptyString => EmptyString
  | String c s' => json_escape_char c +:+ json_escape s'
  end.

Definition json_string (s : string) : string := dq +:+ json_escape s +:+ dq.

Fixpoint spaces (n : nat) : string :=
  match n with
  | 0 => EmptyString
  | S n' => " " +:+ spaces n'
  end.

Fixpoint join (sep : string) (l : list string) : string :=
  match l with
  | [] => EmptyString
  | [x] => x
  | x :: l' => x +:+ sep +:+ join sep l'
  end.

Definition str_of_nat (n : nat) : string :=
  DecimalString.NilZero.string_of_uint (Nat.to_uint n).

Fixpoint json_dumps (level : nat) (j : json) : string :=
  let inner := nl +:+ spaces (4 * S level) in
  let outer := nl +:+ spaces (4 * level) in
  match j with
  | JNull => "null"
  | JInt n => str_of_nat n
  | JStr s => json_string s
  | JArr [] => "[]"
  | JArr items =>
      "[" +:+ inner
      +:+ join ("," +:+ inner) (map (json_dumps (S level)) items)
      +:+ outer +:+ "]"
  | JObj [] => "{}"
  | JObj members =>
      "{" +:+ inner
      +:+ join ("," +:+ inner)
            (map (λ kv, match kv with
                        | (k, v) => json_string k +:+ ": " +:+ json_dumps (S level) v
                        end) members)
      +:+ outer +:+ "}"
  end.

(** [d[k] = v] on an [OrderedDict]: a key already present keeps its
    position and takes the new value. *)
Fixpoint setitem (d : list (string * json)) (k : string) (v : json)
  : list (string * json) :=
  match d with
  | [] => [(k, v)]
  | (k', v') :: d' =>
      if decide (k' = k) then (k, v) :: d' else (k', v') :: setitem d' k v
  end.

Definition JOpt (v : option string) : json :=
  match v with
  | None => JNull
  | Some s => JStr s
  end.

(** The renderer also prints the document on standard output, which the
    embedding leaves out.  [sop_name] receives the raw [governance] column
    of the data element, a primary key or [NULL]. *)
Definition _format_provenance_fhir
  (source_name : string) (source_variable : option string)
  (source_reference : string) (script_name script_version : option string)
  (destination_name : string) (destination_variable : option string)
  (destination_reference : string) (sop_name : option nat)
  (timestamp : string) (steward_name steward_role : option string)
  (description_of_transformation owner_type owner_role : option string)
  : string :=
  let fhird := [] in
  let fhird := setitem fhird "resourceType" (JStr "Provenance") in
  let fhird := setitem fhird "occuredDateTime" (JStr "timestamp") in
  let fhird := setitem fhird "recorded" (JStr "timestamp") in
  let fhird :=
    setitem fhird "policy"
      (match sop_name with None => JNull | Some pk => JInt pk end) in
  let fhird :=
    setitem fhird "location" (JObj [("reference", JOpt steward_name)]) in
  let fhird :=
    setitem fhird "authorization"
      (JObj [("coding",
              JArr [JObj [("system",
                           JStr "http://terminology.hl7.org/CodeSystem/v3-ActReason");
                          ("code", JStr "TRANSRCH");
                          ("display", JStr "My own code")]])]) in
  let fhird :=
    setitem fhird "activity"
      (JObj [("coding",
              JArr [JObj [("system",
                           JStr "http://terminology.hl7.org/CodeSystem/iso-21089-lifecycle");
                          ("code", JOpt description_of_transformation);
                          ("display", JStr "Transform")]])]) in
  let fhird := setitem fhird "basedOn" (JStr "ServiceRequest") in
  let fhird :=
    setitem fhird "target"
      (JArr [JObj [("reference", JStr "Observation/omh-fhir-example")]]) in
  let fhird := setitem fhird "entity" (JObj [("role", JStr "derivation")]) in
  let fhird :=
    setitem fhird "entity"
      (JObj [("what",
              JObj [("identifier",
                     JArr [JObj [("system", JStr "urn:ietf:rfc:3986");
                                 ("value",
                                  JStr "243c773b-8936-407e-9c23-270d0ea49cc4");
                                 ("display", JStr EmptyString)]])])]) in
  let fhird :=
    setitem fhird "agent"
      (JObj [("type",
              JObj [("coding",
                     JArr [JObj [("system",
                                  JStr "http://terminology.hl7.org/CodeSystem/provenance-participant-type");
                                 ("code", JOpt owner_type);
                                 ("display", JStr "owner_name")]])])]) in
  let fhird :=
    setitem fhird "agent"
      (JObj [("role",
              JObj [("coding",
                     JArr [JObj [("system",
                                  JStr "http://terminology.hl7.org/CodeSystem/provenance-participant-type");
                                 ("code", JOpt owner_role);
                                 ("display", JStr "owner_name")]])])]) in
  let fhird :=
    setitem fhird "agent"
      (JObj [("who",
              JObj [("identifier", JOpt steward_name);
                    ("display", JStr "mysteward name")])]) in
  json_dumps 0 (JObj fhird).

(** ** The lineage query *)

(** One row of the joined select: a provenance event hydrated with its
    data element and that element's destination store, source store,
    script, steward and owner. *)
Module Datapoint.
Record t := mk
  { event : DataProvenance.t;
    dataelement : DataElement.t;
    destination : DataStore.t;
    source : DataStore.t;
    script : Script.t;
    steward : DataSteward.t;
    owner : DataOwner.t }.
#[global] Instance Datapoint_eq_dec : EqDecision t.
Proof. solve_decision. Defined.
End Datapoint.

(** The chain of [.join(...)] calls for one event.  Every join is an inner
    join on [foreign key == id], so an unset reference, or one without a
    target row, drops the event. *)
Definition hydrate (d : Database) (dp : DataProvenance.t)
  : option Datapoint.t :=
  el ← row_at (DataElement_rows d) (DataProvenance.dataelement dp);
  dst ← row_at (DataStore_rows d) (DataElement.destination el);
  src ← row_at (DataStore_rows d) (DataElement.source el);
  sc ← DataElement.script el ≫= row_at (Script_rows d);
  stw ← DataElement.steward el ≫= row_at (DataSteward_rows d);
  own ← DataElement.owner el ≫= row_at (DataOwner_rows d);
  Some (Datapoint.mk dp el dst src sc stw own).

(** The [.where(...)] clause.  [variable] may be [None] in a recursive
    call; peewee compares with [None] as [IS NULL]. *)
Definition where_clause (datastore : string) (variable : option string)
  (reference : string) (r : Datapoint.t) : bool :=
  bool_decide (DataProvenance.destinationreference (Datapoint.event r) = reference)
  && bool_decide (DataStore.name (Datapoint.destination r) = datastore)
  && bool_decide (DataElement.destination_variable (Datapoint.dataelement r) = variable).

(** The result rows of the select, in the order of the event table. *)
Definition joined (d : Database) : list Datapoint.t :=
  omap (hydrate d) (DataProvenance_rows d).

Definition select_provenance (d : Database) (datastore : string)
  (variable : option string) (reference : string) : list Datapoint.t :=
  List.filter (where_clause datastore variable reference) (joined d).

(** ** The lineage resolver *)

(** The [if]/[elif] chain in the body of the loop: the text the selected
    renderer gives for one row, nothing when no branch applies. *)
Definition render (format : string) (dp : Datapoint.t) : string :=
  let el := Datapoint.dataelement dp in
  let ev := Datapoint.event dp in
  if decide (format = "logtext") then
    _format_provenance_logtext
      (DataStore.name (Datapoint.source dp)) (DataElement.source_variable el)
      (DataProvenance.sourcereference ev)
      (Script.name (Datapoint.script dp)) (Script.version (Datapoint.script dp))
      (DataStore.name (Datapoint.destination dp))
      (DataElement.destination_variable el)
      (DataProvenance.destinationreference ev)
      (DataSteward.name (Datapoint.steward dp))
      (DataSteward.role (Datapoint.steward dp))
  else if decide (format = "mermaid_flow") then
    _format_provenance_mermaid_flow
      (DataStore.name (Datapoint.source dp)) (DataElement.source_variable el)
      (DataProvenance.sourcereference ev)
      (Script.name (Datapoint.script dp)) (Script.version (Datapoint.script dp))
      (DataStore.name (Datapoint.destination dp))
      (DataElement.destination_variable el)
      (DataProvenance.destinationreference ev)
      (DataSteward.name (Datapoint.steward dp))
      (DataSteward.role (Datapoint.steward dp))
  else if decide (format = "mermaid_w3cprov") then
    _format_provenance_mermaid_w3cprov
      (DataStore.name (Datapoint.source dp)) (DataElement.source_variable el)
      (DataProvenance.sourcereference ev)
      (Script.name (Datapoint.script dp)) (Script.version (Datapoint.script dp))
      (DataStore.name (Datapoint.destination dp))
      (DataElement.destination_variable el)
      (DataProvenance.destinationreference ev)
      (DataSteward.name (Datapoint.steward dp))
      (DataSteward.role (Datapoint.steward dp))
  else if decide (format = "fhir") then
    _format_provenance_fhir
      (DataStore.name (Datapoint.source dp)) (DataElement.source_variable el)
      (DataProvenance.sourcereference ev)
      (Script.name (Datapoint.script dp)) (Script.version (Datapoint.script dp))
      (DataStore.name (Datapoint.destination dp))
      (DataElement.destination_variable el)
      (DataProvenance.destinationreference ev)
      (DataElement.governance el) (DataProvenance.timestamp ev)
      (DataSteward.name (Datapoint.steward dp))
      (DataSteward.role (Datapoint.steward dp))
      (DataElement.description_of_transformation el)
      (DataOwner.type (Datapoint.owner dp))
      (DataOwner.role (Datapoint.owner dp))
  else EmptyString.

(** The [for dp in provenance_datapoint] loop: [provenance_text] grows by
    the rendered row and then by the result of the recursive call [rec] on
    the row; the loop is abandoned when a recursive call does not
    return. *)
Fixpoint for_each (format : string) (rec : Datapoint.t → option string)
  (provenance_datapoint : list Datapoint.t) (provenance_text : string)
  : option string :=
  match provenance_datapoint with
  | [] => Some provenance_text
  | dp :: rest =>
      let provenance_text := provenance_text +:+ render format dp in
      match rec dp with
      | None => None
      | Some sub => for_each format rec rest (provenance_text +:+ sub)
      end
  end.

Fixpoint get_provenance (fuel : nat) (self : Provenance)
  (datastore : string) (variable : option string) (reference : string)
  (format : string) (_top_level_recursion : bool) : option string :=
  match fuel with
  | 0 => None
  | S fuel' =>
      let provenance_datapoint :=
        select_provenance (db self) datastore variable reference in
      if decide (length provenance_datapoint = 0) then Some EmptyString
      else
        let provenance_text :=
          if (bool_decide (format = "mermaid_flow")
              || bool_decide (format = "mermaid_w3cprov"))
             && _top_level_recursion
          then "graph TD" +:+ nl
          else EmptyString in
        for_each format
          (λ dp,
             get_provenance fuel' self
               (DataStore.name (Datapoint.source dp))
               (DataElement.source_variable (Datapoint.dataelement dp))
               (DataProvenance.sourcereference (Datapoint.event dp))
               format false)
          provenance_datapoint provenance_text
  end.

(** ** Call sequences on one instance *)

Inductive call :=
  | Add_script_definition (script_name script_version script_creator : option string)
  | Add_governance_definition (sop_name sop_version sop_status : option string)
  | Add_owner_definition
      (owner_name owner_role owner_type owner_department : option string)
  | Add_steward_definition
      (steward_name steward_role steward_type steward_department : option string)
  | Add_definition (kw : Kw.t)
  | Make_provenance
      (name sourcereference destinationreference quality timestamp : string).

(** One call; an exception of [make_provenance] surfaces to the caller,
    who goes on with the object as the failed call left it. *)
Definition step (self : Provenance) (c : call) : Provenance :=
  match c with
  | Add_script_definition n v cr => add_script_definition self n v cr
  | Add_governance_definition n v s => add_governance_definition self n v s
  | Add_owner_definition n r t dpt => add_owner_definition self n r t dpt
  | Add_steward_definition n r t dpt => add_steward_definition self n r t dpt
  | Add_definition kw => add_definition self kw
  | Make_provenance n s dst q ts =>
      match make_provenance self n s dst q ts with
      | Return self' => self'
      | Raise _ => self
      end
  end.

Definition run (calls : list call) : Provenance := foldl step init calls.

(** * Vocabulary of the properties *)

(** ** Rows written by [add_definition] *)


(** An optional reference: the group is stored only when the caller's
    condition holds. *)
Definition put `{EqDecision A} (tbl : list A) (row : option A)
  : list A * option nat :=
  match row with
  | None => (tbl, None)
  | Some r => let '(tbl', pk, _) := get_or_create tbl r in (tbl', Some pk)
  end.

Definition owner_group (n r t dpt : option string) : option DataOwner.t :=
  if truthy n || truthy r || truthy t || truthy dpt
  then Some (DataOwner.mk n r t dpt) else None.

Definition steward_group (n r t dpt : option string) : option DataSteward.t :=
  if truthy n || truthy r || truthy t || truthy dpt
  then Some (DataSteward.mk n r t dpt) else None.

Definition governance_group (n v s : option string) : option DataGovernance.t :=
  if truthy n || truthy v || truthy s
  then Some (DataGovernance.mk n v s) else None.

Definition script_group (n v c : option string) : option Script.t :=
  if truthy n || truthy v || truthy c
  then Some (Script.mk n v c) else None.

Definition combined_owner (self : Provenance) (kw : Kw.t) : option DataOwner.t :=
  owner_group (if_else (Kw.owner_name kw) (global_owner_name self))
    (if_else (Kw.owner_role kw) (global_owner_role self))
    (if_else (Kw.owner_type kw) (global_owner_type self))
    (if_else (Kw.owner_department kw) (global_owner_department self)).

Definition combined_steward (self : Provenance) (kw : Kw.t)
  : option DataSteward.t :=
  steward_group (if_else (Kw.steward_name kw) (global_steward_name self))
    (if_else (Kw.steward_role kw) (global_steward_role self))
    (if_else (Kw.steward_type kw) (global_steward_type self))
    (if_else (Kw.steward_department kw) (global_steward_department self)).

Definition combined_governance (self : Provenance) (kw : Kw.t)
  : option DataGovernance.t :=
  governance_group (if_else (Kw.sop_name kw) (global_sop_name self))
    (if_else (Kw.sop_version kw) (global_sop_version self))
    (if_else (Kw.sop_status kw) (global_sop_status self)).

Definition combined_script (self : Provenance) (kw : Kw.t) : option Script.t :=
  script_group (if_else (Kw.script_name kw) (global_script_name self))
    (if_else (Kw.script_version kw) (global_script_version self))
    (if_else (Kw.script_creator kw) (global_script_creator self)).

(** The [DataElement] row that [add_definition] looks up or inserts. *)
Definition element_row (self : Provenance) (kw : Kw.t) : DataElement.t :=
  let d := db self in
  let stores := (get_or_create (DataStore_rows d) (DataStore.mk (Kw.source kw))).1 in
  let stores' := (get_or_create stores.1 (DataStore.mk (Kw.destination kw))).1 in
  DataElement.mk (Kw.name kw) (Kw.description kw)
    stores.2 (Kw.source_variable kw)
    stores'.2 (Kw.destination_variable kw)
    (Kw.description_of_transformation kw)
    (Kw.description_of_qualitycheck kw)
    (put (Script_rows d) (combined_script self kw)).2
    (Kw.status_log kw)
    (put (DataOwner_rows d) (combined_owner self kw)).2
    (put (DataGovernance_rows d) (combined_governance self kw)).2
    (put (DataSteward_rows d) (combined_steward self kw)).2.

(** Reading a definition back through the registry and the tables. *)
Definition stored_element (self : Provenance) (id : string)
  : option DataElement.t :=
  list_of_dataelements self !! id ≫= row_at (DataElement_rows (db self)).

Definition stored_owner (self : Provenance) (id : string) : option DataOwner.t :=
  el ← stored_element self id;
  DataElement.owner el ≫= row_at (DataOwner_rows (db self)).

Definition stored_steward (self : Provenance) (id : string)
  : option DataSteward.t :=
  el ← stored_element self id;
  DataElement.steward el ≫= row_at (DataSteward_rows (db self)).

Definition stored_governance (self : Provenance) (id : string)
  : option DataGovernance.t :=
  el ← stored_element self id;
  DataElement.governance el ≫= row_at (DataGovernance_rows (db self)).

Definition stored_script (self : Provenance) (id : string) : option Script.t :=
  el ← stored_element self id;
  DataElement.script el ≫= row_at (Script_rows (db self)).

(** ** Precedence of arguments over defaults *)

(** The precedence rule in the words of the specification: the value
    supplied to the call, else the default, else absent. *)
Definition precedence (explicit default : option string) : option string :=
  match explicit with
  | Some v => Some v
  | None => default
  end.

(** The same rule when a supplied empty string counts as not supplied. *)
Definition precedence_nonempty (explicit default : option string)
  : option string :=
  match explicit with
  | Some (String c s) => Some (String c s)
  | Some EmptyString => default
  | None => default
  end.

(** ** Calls *)

(** Arguments of a call that names only the coordinates of the element. *)
Definition kw_plain (id source : string) (source_variable : option string)
  (destination : string) (destination_variable : option string) : Kw.t :=
  Kw.mk id id None source source_variable destination destination_variable
    None None None None None None None None None None None None None None
    None None None.



(** ** Rendered text *)

(** The sentence in the words of the specification: both coordinate
    triples joined by dots. *)
Definition dotted_sentence (dp : Datapoint.t) : string :=
  DataStore.name (Datapoint.source dp) +:+ "."
  +:+ fmt (DataElement.source_variable (Datapoint.dataelement dp)) +:+ "."
  +:+ DataProvenance.sourcereference (Datapoint.event dp)
  +:+ " was converted by "
  +:+ fmt (Script.name (Datapoint.script dp)) +:+ " "
  +:+ fmt (Script.version (Datapoint.script dp))
  +:+ " to "
  +:+ DataStore.name (Datapoint.destination dp) +:+ "."
  +:+ fmt (DataElement.destination_variable (Datapoint.dataelement dp)) +:+ "."
  +:+ DataProvenance.destinationreference (Datapoint.event dp)
  +:+ " by "
  +:+ fmt (DataSteward.name (Datapoint.steward dp)) +:+ " "
  +:+ fmt (DataSteward.role (Datapoint.steward dp)).

(** A resolved event of the scenarios below. *)
Definition sample_datapoint : Datapoint.t :=
  Datapoint.mk
    (DataProvenance.mk 1 "1" "2" "good" "t1")
    (DataElement.mk "xy" None 1 (Some "v") 2 (Some "v") None None
       (Some 1) None (Some 1) None (Some 1))
    (DataStore.mk "Y") (DataStore.mk "X")
    (Script.mk (Some "etl.py") (Some "v1") None)
    (DataSteward.mk (Some "Koch") (Some "Steward") None None)
    (DataOwner.mk (Some "A") None None None).

(** ** Coordinates and the lineage graph *)

(** A coordinate: store name, variable name, reference. *)
Definition coord : Type := string * option string * string.

Definition dst_coord (dp : Datapoint.t) : coord :=
  (DataStore.name (Datapoint.destination dp),
   DataElement.destination_variable (Datapoint.dataelement dp),
   DataProvenance.destinationreference (Datapoint.event dp)).

Definition src_coord (dp : Datapoint.t) : coord :=
  (DataStore.name (Datapoint.source dp),
   DataElement.source_variable (Datapoint.dataelement dp),
   DataProvenance.sourcereference (Datapoint.event dp)).

(** Destination and source coordinates of a stored event, whether or not
    its data element refers to a script, a steward and an owner. *)
Definition event_coords (d : Database) (ev : DataProvenance.t)
  : option (coord * coord) :=
  el ← row_at (DataElement_rows d) (DataProvenance.dataelement ev);
  dst ← row_at (DataStore_rows d) (DataElement.destination el);
  src ← row_at (DataStore_rows d) (DataElement.source el);
  Some ((DataStore.name dst, DataElement.destination_variable el,
         DataProvenance.destinationreference ev),
        (DataStore.name src, DataElement.source_variable el,
         DataProvenance.sourcereference ev)).

(** An edge of the destination-to-source graph of the stored events. *)
Definition edge (d : Database) (c c' : coord) : Prop :=
  ∃ ev, ev ∈ DataProvenance_rows d ∧ event_coords d ev = Some (c, c').

Definition acyclic (d : Database) : Prop := ∀ c, ¬ tc (edge d) c c.

Definition event_destination (d : Database) (ev : DataProvenance.t)
  : option coord :=
  fst <$> event_coords d ev.

(** ** Scenarios *)

(** Two chained events: X.v.1 to Y.v.2, then Y.v.2 to Z.v.3. *)
Definition chain_calls : list call :=
  [ Add_script_definition (Some "etl.py") (Some "v1") None;
    Add_owner_definition (Some "A") None None None;
    Add_steward_definition (Some "Koch") (Some "Steward") None None;
    Add_definition (kw_plain "xy" "X" (Some "v") "Y" (Some "v"));
    Add_definition (kw_plain "yz" "Y" (Some "v") "Z" (Some "v"));
    Make_provenance "xy" "1" "2" "good" "t1";
    Make_provenance "yz" "2" "3" "good" "t2" ].




(** The defaults and the first definition of [prov_measurements.py]: the
    owner and steward arguments are given as empty strings, the SOP
    arguments override the default. *)
Definition benchmark_defaults : Provenance :=
  add_steward_definition
    (add_governance_definition
       (add_owner_definition
          (add_script_definition init
             (Some "sample_etl.py") (Some "v1.9") (Some "KG"))
          (Some "Prof. Meier") (Some "Data Owner") (Some "Director")
          (Some "Chirurgie"))
       (Some "SOP z") (Some "v5") (Some "approved"))
    (Some "Hr. Koch") (Some "Data Steward") (Some "Programmer")
    (Some "DIC - DBMI").

Definition patid_kw : Kw.t :=
  Kw.mk "patid" "patid" (Some "Patient Number unique")
    "stg_sap_vitalis" (Some "patid") "dwh_vitalis" (Some "PID")
    (Some "copy") (Some "range check 1-10000000")
    None None None
    (Some "passed  date 12.May2022")
    (Some EmptyString) (Some EmptyString) (Some EmptyString) (Some EmptyString)
    (Some EmptyString) (Some EmptyString) (Some EmptyString) (Some EmptyString)
    (Some "SOP xy") (Some "v1") (Some "approved").

(** ** Reasoning about the resolver *)


(** The rows followed by nested recursive calls, outermost first: each
    row is selected for the coordinate handed down by the one before. *)
Inductive chain (d : Database) : coord → list Datapoint.t → Prop :=
  | chain_nil c : chain d c []
  | chain_cons c dp dps :
      dp ∈ joined d → dst_coord dp = c → chain d (src_coord dp) dps →
      chain d c (dp :: dps).

(** A step of the resolver along a row of the join. *)
Definition lineage_step (d : Database) (c c' : coord) : Prop :=
  ∃ dp, dp ∈ joined d ∧ dst_coord dp = c ∧ src_coord dp = c'.

(** A ranking of the coordinates that every stored event descends shows
    the store acyclic. *)
Definition ranked_by (rank : coord → nat) (d : Database) : bool :=
  forallb
    (λ ev, match event_coords d ev with
           | Some (c, c') => bool_decide (rank c' < rank c)
           | None => true
           end)
    (DataProvenance_rows d).


(** ** Opening a database, frames and invariants *)

(** [__init__] on a database file that already holds the tables [d]:
    [create_tables] with [safe = True] keeps them, the registry starts
    empty and every default starts as [None]. *)
Definition Provenance_init (d : Database) : Provenance :=
  mkProvenance d ∅
    None None None None None None None None None None None None None None.

(** The fourteen defaults in force, in the order of [__init__]. *)
Definition defaults (self : Provenance) : list (option string) :=
  [ global_script_name self; global_script_version self;
    global_script_creator self;
    global_sop_name self; global_sop_version self; global_sop_status self;
    global_owner_name self; global_owner_role self; global_owner_type self;
    global_owner_department self;
    global_steward_name self; global_steward_role self;
    global_steward_type self; global_steward_department self ].







(** The value given by the last element of [l] on which [f] is defined. *)
Fixpoint last_some {A B} (f : A → option B) (l : list A) : option B :=
  match l with
  | [] => None
  | x :: l' =>
      match last_some f l' with
      | Some y => Some y
      | None => f x
      end
  end.

Definition script_setter (c : call) : option (list (option string)) :=
  match c with
  | Add_script_definition n v cr => Some [n; v; cr]
  | _ => None
  end.

Definition governance_setter (c : call) : option (list (option string)) :=
  match c with
  | Add_governance_definition n v s => Some [n; v; s]
  | _ => None
  end.

Definition owner_setter (c : call) : option (list (option string)) :=
  match c with
  | Add_owner_definition n r t dpt => Some [n; r; t; dpt]
  | _ => None
  end.

Definition steward_setter (c : call) : option (list (option string)) :=
  match c with
  | Add_steward_definition n r t dpt => Some [n; r; t; dpt]
  | _ => None
  end.

Definition is_make_provenance (c : call) : bool :=
  match c with
  | Make_provenance _ _ _ _ _ => true
  | _ => false
  end.

(** ** More on the resolver *)

(** The rows of the join lead from [c] to a coordinate that lies on a
    cycle. *)
Definition reaches_cycle (d : Database) (c : coord) : Prop :=
  ∃ c', rtc (lineage_step d) c c' ∧ tc (lineage_step d) c' c'.

Definition recognised (format : string) : Prop :=
  format = "logtext" ∨ format = "mermaid_flow"
  ∨ format = "mermaid_w3cprov" ∨ format = "fhir".


(** ** The benchmark script [prov_measurements.py] *)

(** The calls of [testprovenance] before its loop. *)
Definition testprovenance_definitions : list call :=
  [ Add_script_definition (Some "sample_etl.py") (Some "v1.9") (Some "KG");
    Add_owner_definition (Some "Prof. Meier") (Some "Data Owner")
      (Some "Director") (Some "Chirurgie");
    Add_governance_definition (Some "SOP z") (Some "v5") (Some "approved");
    Add_steward_definition (Some "Hr. Koch") (Some "Data Steward")
      (Some "Programmer") (Some "DIC - DBMI");
    Add_definition patid_kw;
    Add_definition
      (Kw.mk "pulse" "pulse" (Some "Puls rate")
         "stg_sap_vitalis" (Some "pulse") "dwh_vitalis" (Some "Pulse")
         (Some "copy") (Some "range check 40-150")
         None None None (Some "passed  date 12.May2022")
         None None None None None None None None None None None);
    Add_definition
      (Kw.mk "averagepulse" "averagepulse" (Some "average Puls rate")
         "dwh_vitalis" (Some "Pulse") "dwh_averages" (Some "avg_pulse")
         (Some "averaging") (Some "range check 40-150")
         (Some "sample_etl2.py") (Some "v1.9") (Some "KG")
         (Some "passed  date 12.May2022")
         None None None None None None None None None None None);
    Add_definition
      (Kw.mk "syst_blood_pressure" "syst_blood_pressure"
         (Some "Systolic Blood Pressure")
         "stg_sap_vitalis" (Some "SysBP") "dwh_vitalis" (Some "SBP")
         (Some "copy") (Some "range check 80-160")
         None None None (Some "passed  date 12.May2022")
         None None None None (Some "no name given") None None None
         (Some "SOP p") (Some "v1.5") (Some "approved"));
    Add_definition
      (Kw.mk "diast_blood_pressure" "diast_blood_pressure"
         (Some "Diastolic Blood Pressure")
         "stg_sap_vitalis" (Some "DiaBP") "dwh_vitalis" (Some "DBP")
         (Some "copy") (Some "range check 50-120")
         None None None (Some "passed  date 12.May2022")
         (Some "Prof. Becker") (Some "Data Owner") None (Some "Intensiv")
         None None None None
         (Some "SOP xy") (Some "v1") (Some "approved"));
    Add_definition
      (Kw.mk "performer" "performer" (Some "Performer")
         "stg_sap_vitalis" (Some "Staff member") "dwh_vitalis"
         (Some "Performed by")
         (Some "copy upper letters") (Some "name in ABCDE")
         None None None (Some "passed  date 12.May2022")
         (Some "Schwester Anne") (Some "Data Owner") (Some "nurse")
         (Some "Chirurgie")
         None None None None
         (Some "SOP xy") (Some "v1") (Some "approved"));
    Add_definition
      (Kw.mk "date" "date" (Some "Date of examination")
         "stg_sap_vitalis" (Some "dat_exam") "dwh_vitalis"
         (Some "Date YYYY-MM-DD")
         (Some "convert date") (Some "range check > 01.01.2022")
         None None None (Some "passed  date 12.May2022")
         None None None None None None None None
         (Some "SOP xy") (Some "v1") (Some "approved")) ].

(** The body of the loop for one index.  The integer references are
    stored in text columns, so they are written in decimal; [now k] is
    what the [k]-th evaluation of [datetime.now()] of the run gives. *)
Definition testprovenance_events (now : nat → string) (ind : nat) : list call :=
  let sourcereference := str_of_nat ind in
  let destinationreference := str_of_nat (ind + 100 * 100) in
  let k := 7 * (ind - 1) in
  [ Make_provenance "patid" sourcereference destinationreference "super"
      (now k);
    Make_provenance "pulse" sourcereference destinationreference "low"
      (now (k + 1));
    Make_provenance "averagepulse" sourcereference destinationreference "low"
      (now (k + 2));
    Make_provenance "syst_blood_pressure" sourcereference destinationreference
      "low" (now (k + 3));
    Make_provenance "diast_blood_pressure" sourcereference destinationreference
      "low" (now (k + 4));
    Make_provenance "performer" sourcereference destinationreference "low"
      (now (k + 5));
    Make_provenance "date" sourcereference destinationreference "low"
      (now (k + 6)) ].

(** [testprovenance(filename, iterations)] on a file with the tables [d]:
    the loop runs over [range(1, iterations)]. *)
Definition testprovenance (d : Database) (now : nat → string)
  (iterations : nat) : Provenance :=
  foldl step (Provenance_init d)
    (testprovenance_definitions
     ++ (seq 1 (iterations - 1) ≫= testprovenance_events now)).

(** The event rows that the loop writes for one index on a fresh
    database, where the seven definitions have the keys 1 to 7. *)
Definition testprovenance_rows (now : nat → string) (ind : nat)
  : list DataProvenance.t :=
  let sourcereference := str_of_nat ind in
  let destinationreference := str_of_nat (ind + 100 * 100) in
  let k := 7 * (ind - 1) in
  [ DataProvenance.mk 1 sourcereference destinationreference "super" (now k);
    DataProvenance.mk 2 sourcereference destinationreference "low" (now (k + 1));
    DataProvenance.mk 3 sourcereference destinationreference "low" (now (k + 2));
    DataProvenance.mk 4 sourcereference destinationreference "low" (now (k + 3));
    DataProvenance.mk 5 sourcereference destinationreference "low" (now (k + 4));
    DataProvenance.mk 6 sourcereference destinationreference "low" (now (k + 5));
    DataProvenance.mk 7 sourcereference destinationreference "low" (now (k + 6)) ].

(** The call [c] records the row [row] under the registry [reg]. *)
Definition records (reg : gmap string nat) (c : call) (row : DataProvenance.t)
  : Prop :=
  match c with
  | Make_provenance name sr dr q ts =>
      reg !! name = Some (DataProvenance.dataelement row)
      ∧ row = DataProvenance.mk (DataProvenance.dataelement row) sr dr q ts
  | _ => False
  end.

(** The stores of the benchmark in the direction of its data flow. *)
Definition benchmark_rank (c : coord) : nat :=
  if decide (c.1.1 = "dwh_averages") then 2
  else if decide (c.1.1 = "dwh_vitalis") then 1 else 0.

(** * Properties *)

(** ** The entity store: [get_or_create] *)

Section get_or_create_facts.
Context `{EqDecision A}.
Implicit Types (tbl : list A) (row : A) (pk : nat).

Lemma find_row_Some tbl row pk :
  find_row tbl row = Some pk → row_at tbl pk = Some row.
Proof.
  revert pk. induction tbl as [|r tbl IH]; intros pk; simpl; [done|].
  case_decide as Hr.
  - intros [= <-]. by subst.
  - destruct (find_row tbl row) as [k|] eqn:Hk; simpl; [|done].
    intros [= <-]. specialize (IH k eq_refl).
    destruct k; simpl in *; [done|]. exact IH.
Qed.

Lemma find_row_None tbl row : find_row tbl row = None ↔ row ∉ tbl.
Proof.
  induction tbl as [|r tbl IH]; simpl.
  - split; [intros _; apply not_elem_of_nil | done].
  - case_decide as Hr.
    + subst. split; [done|]. intros Hn. exfalso. apply Hn. left.
    + rewrite fmap_None, IH, not_elem_of_cons.
      split; [intros ?; split; [congruence|done] | by intros [_ ?]].
Qed.



(** The record returned is stored under the returned key. *)
Lemma get_or_create_row_at tbl row tbl' pk c :
  get_or_create tbl row = (tbl', pk, c) → row_at tbl' pk = Some row.
Proof.
  unfold get_or_create.
  destruct (find_row tbl row) as [k|] eqn:Hk; intros [= <- <- <-].
  - by apply find_row_Some.
  - simpl. by rewrite lookup_app_r, Nat.sub_diag.
Qed.

(** The table only grows, at its end. *)
Lemma get_or_create_grows tbl row tbl' pk c :
  get_or_create tbl row = (tbl', pk, c) → ∃ ext, tbl' = tbl ++ ext.
Proof.
  unfold get_or_create.
  destruct (find_row tbl row); intros [= <- <- <-].
  - exists []. by rewrite app_nil_r.
  - by eexists.
Qed.




Lemma get_or_create_elem_of tbl row tbl' pk c :
  get_or_create tbl row = (tbl', pk, c) → row ∈ tbl'.
Proof.
  intros H0. apply get_or_create_row_at in H0.
  destruct pk; simpl in H0; [done|]. by eapply list_elem_of_lookup_2.
Qed.


End get_or_create_facts.

(** ** [add_definition]: the rows it resolves and stores *)

(** [add_definition] table by table. *)
Lemma add_definition_eq self kw :
  add_definition self kw =
  let d := db self in
  let stores := (get_or_create (DataStore_rows d) (DataStore.mk (Kw.source kw))).1 in
  let stores' := (get_or_create stores.1 (DataStore.mk (Kw.destination kw))).1 in
  let elements := (get_or_create (DataElement_rows d) (element_row self kw)).1 in
  with_store self
    (mkDatabase
       (put (DataOwner_rows d) (combined_owner self kw)).1
       (put (DataSteward_rows d) (combined_steward self kw)).1
       (put (DataGovernance_rows d) (combined_governance self kw)).1
       (put (Script_rows d) (combined_script self kw)).1
       stores'.1 elements.1 (DataProvenance_rows d))
    (<[Kw.id kw := elements.2]> (list_of_dataelements self)).
Proof.
  unfold add_definition, element_row, combined_owner, combined_steward,
    combined_governance, combined_script, owner_group, steward_group,
    governance_group, script_group,
    DataOwner_get_or_create, DataSteward_get_or_create,
    DataGovernance_get_or_create, Script_get_or_create,
    DataStore_get_or_create, DataElement_get_or_create.
  cbv zeta.
  repeat match goal with
         | |- context [if ?b then _ else _] =>
             lazymatch b with
             | orb _ _ => destruct b
             end
         end;
    simpl;
    repeat match goal with
           | |- context [get_or_create ?t ?r] =>
               destruct (get_or_create t r) as [[? ?] ?]; simpl
           end;
    reflexivity.
Qed.


Lemma precedence_nonempty_precedence explicit default :
  explicit ≠ Some EmptyString →
  precedence_nonempty explicit default = precedence explicit default.
Proof. by destruct explicit as [[|c s]|]. Qed.






(** The first definition of the benchmark script takes its owner and
    steward from the defaults and its SOP from the call. *)
Example benchmark_patid :
  let self := add_definition benchmark_defaults patid_kw in
  stored_owner self "patid"
  = Some (DataOwner.mk (Some "Prof. Meier") (Some "Data Owner")
            (Some "Director") (Some "Chirurgie"))
  ∧ stored_steward self "patid"
    = Some (DataSteward.mk (Some "Hr. Koch") (Some "Data Steward")
              (Some "Programmer") (Some "DIC - DBMI"))
  ∧ stored_governance self "patid"
    = Some (DataGovernance.mk (Some "SOP xy") (Some "v1") (Some "approved"))
  ∧ stored_script self "patid"
    = Some (Script.mk (Some "sample_etl.py") (Some "v1.9") (Some "KG")).
Proof. repeat split; vm_compute; reflexivity. Qed.


(** ** Replaying a write *)

Section replay.
Context `{EqDecision A}.
Implicit Types (tbl ext : list A) (row : A).



Lemma get_or_create_ext tbl row : ∃ ext, (get_or_create tbl row).1.1 = tbl ++ ext.
Proof.
  destruct (get_or_create tbl row) as [[tbl' pk] c] eqn:Hg; simpl.
  by eapply get_or_create_grows.
Qed.

End replay.



(** ** Invariants of call sequences *)

Lemma run_snoc calls c : run (calls ++ [c]) = step (run calls) c.
Proof. unfold run. by rewrite foldl_app. Qed.







Lemma make_provenance_registered self name s dst q ts pk :
  list_of_dataelements self !! name = Some pk →
  ∃ self2, make_provenance self name s dst q ts = Return self2.
Proof.
  intros Hreg. unfold make_provenance. rewrite Hreg.
  destruct (DataProvenance_get_or_create _ _) as [d' k]. by eexists.
Qed.






(** ** The registry and the calls that fill it *)





(** ** Defaults are read when a definition is added *)





(** ** The renderers *)

Example json_string_escapes :
  json_string ("a" +:+ dq +:+ "b" +:+ bsl +:+ nl)
  = dq +:+ "a" +:+ bsl +:+ dq +:+ "b" +:+ bsl +:+ bsl +:+ bsl +:+ "n" +:+ dq.
Proof. vm_compute. reflexivity. Qed.

Example json_dumps_nested :
  json_dumps 0 (JObj [("a", JArr [JInt 1; JNull]); ("b", JObj [])])
  = "{" +:+ nl +:+ "    " +:+ dq +:+ "a" +:+ dq +:+ ": [" +:+ nl
    +:+ "        1," +:+ nl +:+ "        null" +:+ nl +:+ "    ]," +:+ nl
    +:+ "    " +:+ dq +:+ "b" +:+ dq +:+ ": {}" +:+ nl +:+ "}".
Proof. vm_compute. reflexivity. Qed.

Lemma string_app_assoc (a b c : string) : (a +:+ b) +:+ c = a +:+ b +:+ c.
Proof.
  induction a as [|x a IH]; [reflexivity|].
  change (String x ((a +:+ b) +:+ c) = String x (a +:+ b +:+ c)).
  by rewrite IH.
Qed.

Lemma string_app_nil_r (a : string) : a +:+ EmptyString = a.
Proof.
  induction a as [|x a IH]; [reflexivity|].
  change (String x (a +:+ EmptyString) = String x a).
  by rewrite IH.
Qed.

(** C6 (as amended).  For every resolved event the log text renderer gives
    one line: the words source store, source variable, source reference,
    "was converted by", script name, script version, "to", destination
    store, destination variable, destination reference, "by", steward
    name, steward role, each separated from the next by a single space
    (the members of the two coordinate triples included), and closed by a
    newline. *)
Theorem logtext_sentence (dp : Datapoint.t) :
  render "logtext" dp
  = join " "
      [ DataStore.name (Datapoint.source dp);
        fmt (DataElement.source_variable (Datapoint.dataelement dp));
        DataProvenance.sourcereference (Datapoint.event dp);
        "was converted by";
        fmt (Script.name (Datapoint.script dp));
        fmt (Script.version (Datapoint.script dp));
        "to";
        DataStore.name (Datapoint.destination dp);
        fmt (DataElement.destination_variable (Datapoint.dataelement dp));
        DataProvenance.destinationreference (Datapoint.event dp);
        "by";
        fmt (DataSteward.name (Datapoint.steward dp));
        fmt (DataSteward.role (Datapoint.steward dp)) ]
    +:+ nl.
Proof.
  unfold render. rewrite decide_True by done.
  unfold _format_provenance_logtext. cbn [join].
  by rewrite !string_app_assoc.
Qed.

(** The rendered line joins the coordinates by spaces, not by dots. *)
Lemma logtext_not_dotted :
  render "logtext" sample_datapoint
  = "X v 1 was converted by etl.py v1 to Y v 2 by Koch Steward" +:+ nl
  ∧ dotted_sentence sample_datapoint
    = "X.v.1 was converted by etl.py v1 to Y.v.2 by Koch Steward"
  ∧ render "logtext" sample_datapoint ≠ dotted_sentence sample_datapoint
  ∧ render "logtext" sample_datapoint ≠ dotted_sentence sample_datapoint +:+ nl.
Proof. repeat split; by vm_compute. Qed.

(** ** Rows of the join and their coordinates *)

Lemma hydrate_inv d ev dp :
  hydrate d ev = Some dp →
  Datapoint.event dp = ev
  ∧ event_coords d ev = Some (dst_coord dp, src_coord dp)
  ∧ row_at (DataElement_rows d) (DataProvenance.dataelement ev)
    = Some (Datapoint.dataelement dp)
  ∧ is_Some (DataElement.script (Datapoint.dataelement dp))
  ∧ is_Some (DataElement.steward (Datapoint.dataelement dp))
  ∧ is_Some (DataElement.owner (Datapoint.dataelement dp)).
Proof.
  unfold hydrate, event_coords. intros Hh.
  destruct (row_at (DataElement_rows d) _) as [el|]; simplify_option_eq.
  by repeat split.
Qed.

Lemma joined_inv d dp :
  dp ∈ joined d →
  Datapoint.event dp ∈ DataProvenance_rows d
  ∧ hydrate d (Datapoint.event dp) = Some dp.
Proof.
  unfold joined. rewrite list_elem_of_omap. intros (ev & Hin & Hh).
  destruct (hydrate_inv _ _ _ Hh) as (<- & _). done.
Qed.

Lemma joined_edge d dp : dp ∈ joined d → edge d (dst_coord dp) (src_coord dp).
Proof.
  intros Hin. apply joined_inv in Hin as (Hev & Hh).
  exists (Datapoint.event dp). split; [done|].
  by apply hydrate_inv in Hh as (_ & ? & _).
Qed.

Lemma where_clause_true ds v r dp :
  where_clause ds v r dp = true ↔ dst_coord dp = (ds, v, r).
Proof.
  unfold where_clause, dst_coord.
  rewrite !andb_true_iff, !bool_decide_eq_true.
  split; [by intros [[-> ->] ->] | by intros [= -> -> ->]].
Qed.

Lemma elem_of_select_provenance d ds v r dp :
  dp ∈ select_provenance d ds v r ↔ dp ∈ joined d ∧ dst_coord dp = (ds, v, r).
Proof.
  unfold select_provenance.
  by rewrite !list_elem_of_In, filter_In, where_clause_true.
Qed.

(** ** The resolver: one level of the recursion *)

Lemma get_provenance_S fuel self ds v r format top :
  get_provenance (S fuel) self ds v r format top
  = if decide (length (select_provenance (db self) ds v r) = 0)
    then Some EmptyString
    else
      for_each format
        (λ dp,
           get_provenance fuel self
             (DataStore.name (Datapoint.source dp))
             (DataElement.source_variable (Datapoint.dataelement dp))
             (DataProvenance.sourcereference (Datapoint.event dp))
             format false)
        (select_provenance (db self) ds v r)
        (if (bool_decide (format = "mermaid_flow")
             || bool_decide (format = "mermaid_w3cprov")) && top
         then "graph TD" +:+ nl else EmptyString).
Proof. reflexivity. Qed.

Section for_each_facts.
Context (format : string).
Implicit Types (rec : Datapoint.t → option string) (dps : list Datapoint.t).

Lemma for_each_ext rec rec' dps text :
  (∀ dp, dp ∈ dps → rec dp = rec' dp) →
  for_each format rec dps text = for_each format rec' dps text.
Proof.
  revert text. induction dps as [|dp dps IH]; intros text Hext; simpl; [done|].
  rewrite <- (Hext dp) by left.
  destruct (rec dp); [|done]. apply IH. intros ??. apply Hext. by right.
Qed.


Lemma for_each_None rec dps text :
  for_each format rec dps text = None → ∃ dp, dp ∈ dps ∧ rec dp = None.
Proof.
  revert text. induction dps as [|dp dps IH]; intros text; simpl; [done|].
  destruct (rec dp) as [sub|] eqn:Hdp.
  - intros (dp' & Hin & Hn)%IH. exists dp'. split; [by right|done].
  - intros _. exists dp. split; [left|done].
Qed.

Lemma for_each_stuck rec dps text dp :
  dp ∈ dps → rec dp = None → for_each format rec dps text = None.
Proof.
  revert text. induction dps as [|dp' dps IH]; intros text Hin Hn; simpl.
  - by apply elem_of_nil in Hin.
  - apply elem_of_cons in Hin as [->|Hin]; [by rewrite Hn|].
    destruct (rec dp'); [by apply IH|done].
Qed.

(** The text handed to the loop is kept in front of what the loop adds. *)
Lemma for_each_prefix rec dps text out :
  for_each format rec dps text = Some out → ∃ added, out = text +:+ added.
Proof.
  revert text. induction dps as [|dp dps IH]; intros text; simpl.
  - intros [= <-]. exists EmptyString. by rewrite string_app_nil_r.
  - destruct (rec dp) as [sub|]; [|done].
    intros [added ->]%IH. eexists. by rewrite !string_app_assoc.
Qed.

(** Every row of the loop contributes its rendered chunk, directly
    followed by the result of the recursive call on it. *)
Lemma for_each_chunk rec dps text out dp :
  for_each format rec dps text = Some out → dp ∈ dps →
  ∃ pre sub post,
    rec dp = Some sub ∧ out = pre +:+ render format dp +:+ sub +:+ post.
Proof.
  revert text. induction dps as [|dp' dps IH]; intros text Hout Hin.
  - by apply elem_of_nil in Hin.
  - simpl in Hout. destruct (rec dp') as [sub|] eqn:Hdp; [|done].
    apply elem_of_cons in Hin as [->|Hin]; [|by eapply IH].
    apply for_each_prefix in Hout as [added ->].
    exists text, sub, added. split; [done|]. by rewrite !string_app_assoc.
Qed.

End for_each_facts.



(** The resolver sees the object only through the rows of the join. *)
Lemma get_provenance_joined fuel self self' ds v r format top :
  joined (db self) = joined (db self') →
  get_provenance fuel self ds v r format top
  = get_provenance fuel self' ds v r format top.
Proof.
  intros Hj. revert ds v r top.
  induction fuel as [|fuel IH]; intros ds v r top; [done|].
  rewrite !get_provenance_S. unfold select_provenance. rewrite Hj.
  case_decide; [done|]. apply for_each_ext. intros dp _. apply IH.
Qed.

(** ** No lineage found *)

(** C5.  When no stored event has the destination coordinates of the
    query, [get_provenance] returns the empty string, for every format,
    at every level of the recursion, and with any positive bound on the
    recursion depth: no recursive call is made. *)
Theorem get_provenance_no_lineage fuel self ds v r format top :
  (∀ ev, ev ∈ DataProvenance_rows (db self) →
         event_destination (db self) ev ≠ Some (ds, v, r)) →
  get_provenance (S fuel) self ds v r format top = Some EmptyString.
Proof.
  intros Hnone. rewrite get_provenance_S.
  assert (Hsel : select_provenance (db self) ds v r = []).
  { apply elem_of_nil_inv. intros dp [Hj Hdst]%elem_of_select_provenance.
    apply joined_inv in Hj as (Hev & Hh).
    apply hydrate_inv in Hh as (_ & Hco & _).
    apply (Hnone _ Hev). unfold event_destination. rewrite Hco. simpl.
    by rewrite Hdst. }
  by rewrite Hsel.
Qed.

Lemma get_provenance_no_lineage_witness :
  get_provenance 1 (run chain_calls) "X" (Some "v") "1" "fhir" true
  = Some EmptyString.
Proof.
  apply (get_provenance_no_lineage 0 (run chain_calls) "X" (Some "v") "1").
  apply Forall_forall. apply (bool_decide_unpack _). vm_compute. exact I.
Defined.

(** ** Events dropped by the join *)





(** ** Termination of the resolver *)

(** A call that exhausts its bound has descended through that many rows. *)
Lemma get_provenance_None_chain fuel self ds v r format top :
  get_provenance fuel self ds v r format top = None →
  ∃ dps, length dps = fuel ∧ chain (db self) (ds, v, r) dps.
Proof.
  revert ds v r top. induction fuel as [|fuel IH]; intros ds v r top.
  - intros _. exists []. split; [done|constructor].
  - rewrite get_provenance_S. case_decide; [done|].
    intros (dp & [Hj Hdst]%elem_of_select_provenance & Hrec)%for_each_None.
    apply IH in Hrec as (dps & Hlen & Hch).
    exists (dp :: dps). split; [by rewrite <- Hlen|]. by constructor.
Qed.

Lemma chain_joined d c dps dp : chain d c dps → dp ∈ dps → dp ∈ joined d.
Proof.
  induction 1 as [|c dp' dps Hj Hdst Hch IH]; intros Hin.
  - by apply elem_of_nil in Hin.
  - apply elem_of_cons in Hin as [->|Hin]; [done|by apply IH].
Qed.

Lemma chain_reach d c dps dp :
  chain d c dps → dp ∈ dps → rtc (edge d) c (dst_coord dp).
Proof.
  induction 1 as [|c dp' dps Hj Hdst Hch IH]; intros Hin.
  - by apply elem_of_nil in Hin.
  - apply elem_of_cons in Hin as [->|Hin]; [by rewrite Hdst|].
    eapply rtc_l; [|by apply IH]. rewrite <- Hdst. by apply joined_edge.
Qed.

Lemma chain_NoDup d c dps : acyclic d → chain d c dps → NoDup dps.
Proof.
  intros Hacyc. induction 1 as [|c dp dps Hj Hdst Hch IH]; [constructor|].
  constructor; [|done]. intros Hin.
  apply (Hacyc (dst_coord dp)).
  eapply tc_rtc_r; [apply tc_once, joined_edge, Hj|].
  by eapply chain_reach.
Qed.

Lemma omap_length_le {A B} (f : A → option B) (l : list A) :
  length (omap f l) ≤ length l.
Proof.
  induction l as [|x l IH]; [done|].
  cbn. destruct (f x); cbn; lia.
Qed.

Lemma joined_length d : length (joined d) ≤ length (DataProvenance_rows d).
Proof. apply omap_length_le. Qed.

(** On an acyclic store a bound above the number of stored events is
    never hit. *)
Lemma get_provenance_acyclic self fuel ds v r format top :
  acyclic (db self) →
  length (DataProvenance_rows (db self)) < fuel →
  is_Some (get_provenance fuel self ds v r format top).
Proof.
  intros Hacyc Hfuel.
  destruct (get_provenance fuel self ds v r format top) as [out|] eqn:Hg;
    [by eexists|].
  apply get_provenance_None_chain in Hg as (dps & Hlen & Hch).
  assert (length dps ≤ length (joined (db self))).
  { apply submseteq_length, NoDup_submseteq; [by eapply chain_NoDup|].
    intros dp. by eapply chain_joined. }
  pose proof (joined_length (db self)). lia.
Qed.



(** A set of coordinates that the resolver cannot leave: no bound on the
    recursion depth lets a call on one of them return. *)
Lemma get_provenance_diverges self (trap : coord → Prop) :
  (∀ c, trap c → ∃ c', lineage_step (db self) c c' ∧ trap c') →
  ∀ fuel ds v r format top,
    trap (ds, v, r) → get_provenance fuel self ds v r format top = None.
Proof.
  intros Htrap fuel. induction fuel as [|fuel IH]; intros ds v r format top Hc;
    [done|].
  destruct (Htrap _ Hc) as (c' & (dp & Hj & Hdst & Hsrc) & Hc').
  rewrite get_provenance_S.
  assert (Hin : dp ∈ select_provenance (db self) ds v r)
    by by apply elem_of_select_provenance.
  case_decide as Hlen.
  { destruct (select_provenance (db self) ds v r); [|done].
    by apply elem_of_nil in Hin. }
  eapply for_each_stuck; [exact Hin|].
  apply IH. by rewrite <- Hsrc in Hc'.
Qed.


Lemma ranked_acyclic rank d : ranked_by rank d = true → acyclic d.
Proof.
  unfold ranked_by. rewrite forallb_forall. intros Hrank.
  assert (Hdesc : ∀ c c', tc (edge d) c c' → rank c' < rank c).
  { assert (Hedge : ∀ c c', edge d c c' → rank c' < rank c).
    { intros c c' (ev & Hin & Hco). apply list_elem_of_In in Hin.
      specialize (Hrank ev Hin). rewrite Hco in Hrank.
      by apply bool_decide_eq_true in Hrank. }
    induction 1 as [c c' He|c c' c'' He _ IH].
    - by apply Hedge.
    - apply Hedge in He. lia. }
  intros c Hc. apply Hdesc in Hc. lia.
Qed.






(** The chain scenario in the three text formats. *)
Example chain_logtext :
  get_provenance 3 (run chain_calls) "Z" (Some "v") "3" "logtext" true
  = Some (("Y v 2 was converted by etl.py v1 to Z v 3 by Koch Steward" +:+ nl)
          +:+ ("X v 1 was converted by etl.py v1 to Y v 2 by Koch Steward"
               +:+ nl)).
Proof. vm_compute. reflexivity. Qed.

Example chain_mermaid_flow :
  get_provenance 3 (run chain_calls) "Z" (Some "v") "3" "mermaid_flow" true
  = Some (("graph TD" +:+ nl)
          +:+ ("    Y.v.2--> |etl.py. v1  Koch.Steward| Z.v.3" +:+ nl)
          +:+ ("    X.v.1--> |etl.py. v1  Koch.Steward| Y.v.2" +:+ nl)).
Proof. vm_compute. reflexivity. Qed.

Example chain_mermaid_w3cprov_inner :
  get_provenance 2 (run chain_calls) "Y" (Some "v") "2" "mermaid_w3cprov" false
  = Some (("    A['etl.py''v1'] -->|used| B(['X''v''1'])" +:+ nl)
          +:+ ("    C(['Y''v''2']) -->|was generated by| A['etl.py''v1']"
               +:+ nl)
          +:+ ("    A['etl.py''v1'] -.->|was associated with| D[/'Koch'Steward"
               +:+ bsl +:+ "] " +:+ nl)
          +:+ ("    C(['Y''v''2'])  -->|was derived from| B(['X''v''1'])"
               +:+ nl)).
Proof. vm_compute. reflexivity. Qed.

(** Too small a bound on the recursion depth gives no result. *)
Example chain_out_of_fuel :
  get_provenance 2 (run chain_calls) "Z" (Some "v") "3" "logtext" true = None.
Proof. vm_compute. reflexivity. Qed.

(** ** Unknown formats *)






(** ** Lineage chaining *)


(** A call that returns has rendered every selected row and appended the
    result of the recursive call on the row's source coordinates directly
    after the row's chunk. *)
Lemma get_provenance_chunk fuel self ds v r format top out dp :
  get_provenance fuel self ds v r format top = Some out →
  dp ∈ joined (db self) → dst_coord dp = (ds, v, r) →
  ∃ fuel' pre sub post,
    fuel = S fuel'
    ∧ get_provenance fuel' self (src_coord dp).1.1 (src_coord dp).1.2
        (src_coord dp).2 format false = Some sub
    ∧ out = pre +:+ render format dp +:+ sub +:+ post.
Proof.
  intros Hout Hj Hdst. destruct fuel as [|fuel']; [done|].
  rewrite get_provenance_S in Hout.
  assert (Hin : dp ∈ select_provenance (db self) ds v r)
    by by apply elem_of_select_provenance.
  case_decide as Hlen.
  { destruct (select_provenance (db self) ds v r); [|done].
    by apply elem_of_nil in Hin. }
  destruct (for_each_chunk _ _ _ _ _ dp Hout Hin) as (pre & sub & post & Hsub & ->).
  by exists fuel', pre, sub, post.
Qed.




(** * Further properties of the write path *)

(** ** Tables only grow *)


Lemma get_or_create_prefix `{EqDecision A} (tbl : list A) (row : A) :
  tbl `prefix_of` (get_or_create tbl row).1.1.
Proof. destruct (get_or_create_ext tbl row) as [ext ->]. by exists ext. Qed.





Lemma make_provenance_frame self name s dst q ts self' :
  make_provenance self name s dst q ts = Return self' →
  ∃ pk,
    list_of_dataelements self !! name = Some pk
    ∧ self'
      = with_store self
          (mkDatabase (DataOwner_rows (db self)) (DataSteward_rows (db self))
             (DataGovernance_rows (db self)) (Script_rows (db self))
             (DataStore_rows (db self)) (DataElement_rows (db self))
             (get_or_create (DataProvenance_rows (db self))
                (DataProvenance.mk pk s dst q ts)).1.1)
          (list_of_dataelements self).
Proof.
  unfold make_provenance, DataProvenance_get_or_create.
  destruct (list_of_dataelements self !! name) as [pk|]; [|done].
  intros Hm. exists pk. revert Hm.
  destruct (get_or_create (DataProvenance_rows (db self)) _)
    as [[rows k] c]; simpl.
  by intros [= <-].
Qed.





(** ** No duplicate rows *)






(** ** Referential integrity *)















(** ** Which events the join keeps *)




(** ** Lineage changes only when an event is recorded *)








(** ** The defaults in force *)

Lemma last_some_snoc {A B} (f : A → option B) (l : list A) (x : A) :
  last_some f (l ++ [x])
  = match f x with Some y => Some y | None => last_some f l end.
Proof.
  induction l as [|z l IH]; simpl; [by destruct (f x)|].
  rewrite IH. by destruct (f x).
Qed.

Lemma add_definition_defaults self kw :
  defaults (add_definition self kw) = defaults self.
Proof. by rewrite add_definition_eq. Qed.

Lemma make_provenance_defaults self name s dst q ts self' :
  make_provenance self name s dst q ts = Return self' →
  defaults self' = defaults self.
Proof. by intros (pk & _ & ->)%make_provenance_frame. Qed.

Lemma defaults_groups self self' :
  defaults self' = defaults self →
  [global_script_name self'; global_script_version self';
   global_script_creator self']
  = [global_script_name self; global_script_version self;
     global_script_creator self]
  ∧ [global_sop_name self'; global_sop_version self'; global_sop_status self']
    = [global_sop_name self; global_sop_version self; global_sop_status self]
  ∧ [global_owner_name self'; global_owner_role self'; global_owner_type self';
     global_owner_department self']
    = [global_owner_name self; global_owner_role self; global_owner_type self;
       global_owner_department self]
  ∧ [global_steward_name self'; global_steward_role self';
     global_steward_type self'; global_steward_department self']
    = [global_steward_name self; global_steward_role self;
       global_steward_type self; global_steward_department self].
Proof. unfold defaults. intros Hd. simplify_eq. repeat split; congruence. Qed.

(** X6.  The defaults of a group are those of the most recent call to
    the group's setter, all fields at once: a field the last call left out
    is [None], whatever earlier calls gave it, and no other operation
    changes a default.  Before the first call of a setter the group's
    defaults are [None]. *)
Theorem defaults_follow_last_setter calls :
  let self := run calls in
  [global_script_name self; global_script_version self;
   global_script_creator self]
  = default [None; None; None] (last_some script_setter calls)
  ∧ [global_sop_name self; global_sop_version self; global_sop_status self]
    = default [None; None; None] (last_some governance_setter calls)
  ∧ [global_owner_name self; global_owner_role self; global_owner_type self;
     global_owner_department self]
    = default [None; None; None; None] (last_some owner_setter calls)
  ∧ [global_steward_name self; global_steward_role self;
     global_steward_type self; global_steward_department self]
    = default [None; None; None; None] (last_some steward_setter calls).
Proof.
  cbv zeta. induction calls as [|c calls IH] using rev_ind; [done|].
  rewrite run_snoc, !last_some_snoc.
  destruct IH as (Hsc & Hg & Ho & Hs).
  destruct c as [n v cr|n v s|n r t dpt|n r t dpt|kw|name s dst q ts].
  - simpl. by rewrite Hg, Ho, Hs.
  - simpl. by rewrite Hsc, Ho, Hs.
  - simpl. by rewrite Hsc, Hg, Hs.
  - simpl. by rewrite Hsc, Hg, Ho.
  - destruct (defaults_groups (run calls) (step (run calls) (Add_definition kw))
                (add_definition_defaults _ _)) as (-> & -> & -> & ->).
    by rewrite Hsc, Hg, Ho, Hs.
  - assert (Hd : defaults (step (run calls) (Make_provenance name s dst q ts))
                 = defaults (run calls)).
    { simpl. destruct (make_provenance (run calls) name s dst q ts)
        as [self'|e] eqn:Hm; [|done].
      by eapply make_provenance_defaults. }
    destruct (defaults_groups _ _ Hd) as (-> & -> & -> & ->).
    by rewrite Hsc, Hg, Ho, Hs.
Qed.

(** ** What each write operation touches *)

Lemma get_or_create_length `{EqDecision A} (tbl : list A) (row : A) :
  length (get_or_create tbl row).1.1 ≤ S (length tbl).
Proof.
  unfold get_or_create. destruct (find_row tbl row); simpl; [lia|].
  rewrite length_app. simpl. lia.
Qed.


Lemma step_make_provenance_frame self name s dst q ts :
  let self' := step self (Make_provenance name s dst q ts) in
  DataOwner_rows (db self') = DataOwner_rows (db self)
  ∧ DataSteward_rows (db self') = DataSteward_rows (db self)
  ∧ DataGovernance_rows (db self') = DataGovernance_rows (db self)
  ∧ Script_rows (db self') = Script_rows (db self)
  ∧ DataStore_rows (db self') = DataStore_rows (db self)
  ∧ DataElement_rows (db self') = DataElement_rows (db self)
  ∧ list_of_dataelements self' = list_of_dataelements self
  ∧ defaults self' = defaults self
  ∧ DataProvenance_rows (db self) `prefix_of` DataProvenance_rows (db self')
  ∧ length (DataProvenance_rows (db self'))
    ≤ S (length (DataProvenance_rows (db self)))
  ∧ ∀ pk, list_of_dataelements self !! name = Some pk →
          DataProvenance.mk pk s dst q ts ∈ DataProvenance_rows (db self').
Proof.
  cbv zeta. simpl.
  destruct (make_provenance self name s dst q ts) as [self'|e] eqn:Hm.
  - apply make_provenance_frame in Hm as (pk & Hpk & ->). cbn.
    repeat split; try done.
    + apply get_or_create_prefix.
    + apply get_or_create_length.
    + intros pk' Hpk'. rewrite Hpk in Hpk'. injection Hpk' as <-.
      destruct (get_or_create (DataProvenance_rows (db self)) _)
        as [[rows k] c] eqn:Hg; simpl.
      by eapply get_or_create_elem_of.
  - repeat split; try done; [lia|].
    intros pk Hpk. unfold make_provenance in Hm. rewrite Hpk in Hm.
    by destruct (DataProvenance_get_or_create _ _).
Qed.





(** ** Running the same calls against the same database file *)









(** * Further properties of the resolver *)

(** X10.  The resolver reads the database only.  Two objects over the same
    tables give the same answers whatever their registries and defaults;
    in particular a new object opened on the database file answers every
    lineage query as the object that wrote it. *)
Theorem lineage_from_database_only self self' fuel ds v r format top :
  db self' = db self →
  get_provenance fuel self' ds v r format top
  = get_provenance fuel self ds v r format top
  ∧ get_provenance fuel (Provenance_init (db self)) ds v r format top
    = get_provenance fuel self ds v r format top.
Proof.
  intros Hdb. split; apply get_provenance_joined; [by rewrite Hdb|done].
Qed.

Lemma lineage_from_database_only_witness :
  get_provenance 3 (Provenance_init (db (run chain_calls)))
    "Z" (Some "v") "3" "logtext" true
  = get_provenance 3 (run chain_calls) "Z" (Some "v") "3" "logtext" true.
Proof.
  exact (proj2 (lineage_from_database_only (run chain_calls) (run chain_calls)
                  3 "Z" (Some "v") "3" "logtext" true eq_refl)).
Defined.

(** ** The diagram header *)





(** ** The result as a concatenation *)

Lemma join_empty_cons (x : string) (l : list string) :
  join EmptyString (x :: l) = x +:+ join EmptyString l.
Proof. destruct l; [by rewrite string_app_nil_r|done]. Qed.

Lemma for_each_concat format rec dps text out :
  for_each format rec dps text = Some out
  ↔ ∃ subs,
      Forall2 (λ dp sub, rec dp = Some sub) dps subs
      ∧ out = text
              +:+ join EmptyString
                    (zip_with (λ dp sub, render format dp +:+ sub) dps subs).
Proof.
  revert text out. induction dps as [|dp dps IH]; intros text out; simpl.
  - split.
    + intros [= <-]. exists []. split; [constructor|].
      by rewrite string_app_nil_r.
    + intros (subs & Hsubs & ->). apply Forall2_nil_inv_l in Hsubs as ->.
      by rewrite string_app_nil_r.
  - destruct (rec dp) as [sub|] eqn:Hdp.
    + rewrite IH. split.
      * intros (subs & Hsubs & ->). exists (sub :: subs).
        split; [by constructor|].
        cbn [zip_with]. by rewrite join_empty_cons, !string_app_assoc.
      * intros (subs & Hsubs & ->).
        apply Forall2_cons_inv_l in Hsubs as (sub' & subs' & Hsub & Hsubs & ->).
        rewrite Hdp in Hsub. injection Hsub as <-.
        exists subs'. split; [done|].
        cbn [zip_with]. by rewrite join_empty_cons, !string_app_assoc.
    + split; [done|]. intros (subs & Hsubs & _).
      apply Forall2_cons_inv_l in Hsubs as (sub' & subs' & Hsub & _).
      by rewrite Hdp in Hsub.
Qed.

(** X12.  What a nested call returns is the concatenation, in the order of
    the event table, of one piece per selected event: the chunk rendered
    for the event directly followed by the lineage of the event's source
    coordinates.  So when several events share the queried destination
    coordinates every one of them contributes, and the call returns
    exactly when the calls on all their sources return. *)
Theorem lineage_is_concatenation fuel self ds v r format out :
  get_provenance (S fuel) self ds v r format false = Some out
  ↔ ∃ subs,
      Forall2
        (λ dp sub,
           get_provenance fuel self (src_coord dp).1.1 (src_coord dp).1.2
             (src_coord dp).2 format false = Some sub)
        (select_provenance (db self) ds v r) subs
      ∧ out = join EmptyString
                (zip_with (λ dp sub, render format dp +:+ sub)
                   (select_provenance (db self) ds v r) subs).
Proof.
  rewrite get_provenance_S. case_decide as Hlen.
  - destruct (select_provenance (db self) ds v r) as [|dp dps]; [|done].
    split.
    + intros [= <-]. exists []. split; [constructor|done].
    + by intros (subs & ->%Forall2_nil_inv_l & ->).
  - rewrite andb_false_r. rewrite for_each_concat. done.
Qed.

Lemma lineage_is_concatenation_witness :
  ∃ out subs,
    Forall2
      (λ dp sub,
         get_provenance 2 (run chain_calls) (src_coord dp).1.1
           (src_coord dp).1.2 (src_coord dp).2 "logtext" false = Some sub)
      (select_provenance (db (run chain_calls)) "Z" (Some "v") "3") subs
    ∧ out = join EmptyString
              (zip_with (λ dp sub, render "logtext" dp +:+ sub)
                 (select_provenance (db (run chain_calls)) "Z" (Some "v") "3")
                 subs).
Proof.
  eexists.
  apply (proj1 (lineage_is_concatenation 2 (run chain_calls)
                  "Z" (Some "v") "3" "logtext" _)).
  vm_compute. reflexivity.
Defined.

(** ** Exactly when a query returns *)

Lemma joined_lineage_step d dp :
  dp ∈ joined d → lineage_step d (dst_coord dp) (src_coord dp).
Proof. intros Hj. by exists dp. Qed.

Lemma chain_reach_step d c dps dp :
  chain d c dps → dp ∈ dps → rtc (lineage_step d) c (dst_coord dp).
Proof.
  induction 1 as [|c dp' dps Hj Hdst Hch IH]; intros Hin.
  - by apply elem_of_nil in Hin.
  - apply elem_of_cons in Hin as [->|Hin]; [by rewrite Hdst|].
    eapply rtc_l; [|by apply IH]. rewrite <- Hdst. by apply joined_lineage_step.
Qed.

Lemma reaches_cycle_step d c c' :
  lineage_step d c c' → reaches_cycle d c' → reaches_cycle d c.
Proof. intros Hstep (c'' & Hr & Hc). exists c''. split; [by eapply rtc_l|done]. Qed.

Lemma chain_NoDup_local d c dps :
  ¬ reaches_cycle d c → chain d c dps → NoDup dps.
Proof.
  intros Hno Hch. induction Hch as [|c dp dps Hj Hdst Hch IH]; [constructor|].
  pose proof (joined_lineage_step _ _ Hj) as Hstep. rewrite Hdst in Hstep.
  constructor.
  - intros Hin. apply Hno. exists c. split; [done|].
    eapply tc_rtc_r; [by apply tc_once|].
    rewrite <- Hdst. by eapply chain_reach_step.
  - apply IH. intros Hc. apply Hno. by eapply reaches_cycle_step.
Qed.

Lemma get_provenance_no_cycle self fuel ds v r format top :
  ¬ reaches_cycle (db self) (ds, v, r) →
  length (DataProvenance_rows (db self)) < fuel →
  is_Some (get_provenance fuel self ds v r format top).
Proof.
  intros Hno Hfuel.
  destruct (get_provenance fuel self ds v r format top) as [out|] eqn:Hg;
    [by eexists|].
  apply get_provenance_None_chain in Hg as (dps & Hlen & Hch).
  assert (length dps ≤ length (joined (db self))).
  { apply submseteq_length, NoDup_submseteq; [by eapply chain_NoDup_local|].
    intros dp. by eapply chain_joined. }
  pose proof (joined_length (db self)). lia.
Qed.

Lemma get_provenance_reaches_cycle self fuel ds v r format top :
  reaches_cycle (db self) (ds, v, r) →
  get_provenance fuel self ds v r format top = None.
Proof.
  apply (get_provenance_diverges self (reaches_cycle (db self))).
  intros c (c' & Hr & Hc). destruct Hr as [c|c d c' Hstep Hr].
  - inversion Hc as [? ? Hstep | ? d ? Hstep Hrest]; subst.
    + exists c. split; [done|]. exists c. split; [done|by apply tc_once].
    + exists d. split; [done|]. exists c. split; [by apply tc_rtc|].
      by eapply tc_l.
  - exists d. split; [done|]. by exists c'.
Qed.

(** X13.  A query returns exactly when the rows of the join do not lead
    from the queried coordinate to a cycle: a cycle elsewhere in the store
    does not disturb it, a cycle that it reaches makes it run without end.
    When it returns, any bound on the recursion depth above the number of
    stored events is enough. *)
Theorem returns_iff_no_cycle_reached self ds v r format top :
  ((∃ fuel out, get_provenance fuel self ds v r format top = Some out)
   ↔ ¬ reaches_cycle (db self) (ds, v, r))
  ∧ (¬ reaches_cycle (db self) (ds, v, r) →
     ∀ fuel, length (DataProvenance_rows (db self)) < fuel →
             is_Some (get_provenance fuel self ds v r format top)).
Proof.
  split; [split|].
  - intros (fuel & out & Hout) Hc.
    by rewrite (get_provenance_reaches_cycle _ _ _ _ _ _ _ Hc) in Hout.
  - intros Hno.
    destruct (get_provenance_no_cycle self
                (S (length (DataProvenance_rows (db self)))) ds v r format top
                Hno ltac:(lia)) as [out Hout].
    by exists (S (length (DataProvenance_rows (db self)))), out.
  - intros Hno fuel Hfuel. by apply get_provenance_no_cycle.
Qed.

Lemma returns_iff_no_cycle_reached_witness :
  let self := foldl step (run chain_calls)
                [Add_definition (kw_plain "ww" "W" (Some "v") "W" (Some "v"));
                 Make_provenance "ww" "1" "1" "good" "t3"] in
  (∀ fuel, get_provenance fuel self "W" (Some "v") "1" "logtext" true = None)
  ∧ ∀ fuel, length (DataProvenance_rows (db self)) < fuel →
            is_Some (get_provenance fuel self "Z" (Some "v") "3" "logtext" true).
Proof.
  cbv zeta.
  set (self := foldl step (run chain_calls) _).
  split.
  - intros fuel.
    destruct (get_provenance fuel self "W" (Some "v") "1" "logtext" true)
      as [out|] eqn:Hout; [|done].
    exfalso.
    apply (proj1 (proj1 (returns_iff_no_cycle_reached self "W" (Some "v") "1"
                           "logtext" true)) (ex_intro _ fuel (ex_intro _ out Hout))).
    exists ("W", Some "v", "1"). split; [done|]. apply tc_once.
    exists (Datapoint.mk (DataProvenance.mk 3 "1" "1" "good" "t3")
              (DataElement.mk "ww" None 4 (Some "v") 4 (Some "v") None None
                 (Some 1) None (Some 1) None (Some 1))
              (DataStore.mk "W") (DataStore.mk "W")
              (Script.mk (Some "etl.py") (Some "v1") None)
              (DataSteward.mk (Some "Koch") (Some "Steward") None None)
              (DataOwner.mk (Some "A") None None None)).
    split; [|done]. apply (bool_decide_unpack _). by vm_compute.
  - apply (proj2 (returns_iff_no_cycle_reached self "Z" (Some "v") "3"
                    "logtext" true)).
    apply (proj1 (returns_iff_no_cycle_reached self "Z" (Some "v") "3"
                    "logtext" true)).
    exists 3. eexists. vm_compute. reflexivity.
Defined.

(** ** A recorded event is found *)





(** ** Recognised formats: empty text means no lineage *)

Lemma string_app_eq_nil (a b : string) :
  a +:+ b = EmptyString → a = EmptyString ∧ b = EmptyString.
Proof. destruct a; [done|]. intros Heq. discriminate Heq. Qed.

Lemma render_recognised_nonempty format dp :
  recognised format → render format dp ≠ EmptyString.
Proof.
  intros [-> | [-> | [-> | ->]]]; unfold render.
  - rewrite decide_True by done. unfold _format_provenance_logtext.
    intros Heq. apply string_app_eq_nil in Heq as [Heq _].
    apply string_app_eq_nil in Heq as [_ Heq]. discriminate Heq.
  - rewrite decide_False, decide_True by done.
    unfold _format_provenance_mermaid_flow.
    intros Heq. apply string_app_eq_nil in Heq as [Heq _].
    apply string_app_eq_nil in Heq as [Heq _]. discriminate Heq.
  - rewrite !decide_False, decide_True by done.
    unfold _format_provenance_mermaid_w3cprov.
    intros Heq. apply string_app_eq_nil in Heq as [Heq _].
    apply string_app_eq_nil in Heq as [Heq _]. discriminate Heq.
  - rewrite !decide_False, decide_True by done.
    unfold _format_provenance_fhir. cbn [setitem].
    intros Heq. discriminate Heq.
Qed.

(** X15.  For the four recognised formats the returned text is empty
    exactly when no event is selected for the queried coordinates: every
    selected event leaves a non-empty chunk, so an empty answer means
    "no recorded history" and nothing else. *)
Theorem empty_text_iff_no_event fuel self ds v r format top out :
  recognised format →
  get_provenance fuel self ds v r format top = Some out →
  (out = EmptyString ↔ select_provenance (db self) ds v r = []).
Proof.
  intros Hfmt Hout. split.
  - intros ->.
    destruct (select_provenance (db self) ds v r) as [|dp dps] eqn:Hsel; [done|].
    assert (Hin : dp ∈ select_provenance (db self) ds v r)
      by (rewrite Hsel; left).
    apply elem_of_select_provenance in Hin as [Hj Hdst].
    destruct (get_provenance_chunk _ _ _ _ _ _ _ _ dp Hout Hj Hdst)
      as (fuel' & pre & sub & post & _ & _ & Heq).
    symmetry in Heq. apply string_app_eq_nil in Heq as [_ Heq].
    apply string_app_eq_nil in Heq as [Heq _].
    by apply render_recognised_nonempty in Heq.
  - intros Hsel. destruct fuel as [|fuel]; [done|].
    rewrite get_provenance_S, Hsel in Hout. by injection Hout.
Qed.

Lemma empty_text_iff_no_event_witness :
  select_provenance (db (run chain_calls)) "X" (Some "v") "1" = [].
Proof.
  apply (empty_text_iff_no_event 1 (run chain_calls) "X" (Some "v") "1"
           "mermaid_flow" true EmptyString).
  - right. by left.
  - by vm_compute.
  - reflexivity.
Defined.

(** ** The FHIR document *)

(** The document after the repeated assignments to [entity] and [agent]:
    each key keeps its first position and its last value. *)
Lemma fhir_document source_name source_variable source_reference
    script_name script_version destination_name destination_variable
    destination_reference sop_name timestamp steward_name steward_role
    description_of_transformation owner_type owner_role :
  _format_provenance_fhir source_name source_variable source_reference
    script_name script_version destination_name destination_variable
    destination_reference sop_name timestamp steward_name steward_role
    description_of_transformation owner_type owner_role
  = json_dumps 0
      (JObj
         [ ("resourceType", JStr "Provenance");
           ("occuredDateTime", JStr "timestamp");
           ("recorded", JStr "timestamp");
           ("policy", match sop_name with None => JNull | Some pk => JInt pk end);
           ("location", JObj [("reference", JOpt steward_name)]);
           ("authorization",
            JObj [("coding",
                   JArr [JObj [("system",
                                JStr "http://terminology.hl7.org/CodeSystem/v3-ActReason");
                               ("code", JStr "TRANSRCH");
                               ("display", JStr "My own code")]])]);
           ("activity",
            JObj [("coding",
                   JArr [JObj [("system",
                                JStr "http://terminology.hl7.org/CodeSystem/iso-21089-lifecycle");
                               ("code", JOpt description_of_transformation);
                               ("display", JStr "Transform")]])]);
           ("basedOn", JStr "ServiceRequest");
           ("target",
            JArr [JObj [("reference", JStr "Observation/omh-fhir-example")]]);
           ("entity",
            JObj [("what",
                   JObj [("identifier",
                          JArr [JObj [("system", JStr "urn:ietf:rfc:3986");
                                      ("value",
                                       JStr "243c773b-8936-407e-9c23-270d0ea49cc4");
                                      ("display", JStr EmptyString)]])])]);
           ("agent",
            JObj [("who",
                   JObj [("identifier", JOpt steward_name);
                         ("display", JStr "mysteward name")])]) ]).
Proof. reflexivity. Qed.

(** X16.  The FHIR document of an event carries three of its facts only:
    the key of the governance record (as [policy]), the steward's name (as
    [location] reference and as the [who] of the agent) and the
    description of the transformation (as activity code).  Two events
    that agree on these have the same document, whatever their stores,
    variables, references, time stamps, scripts, steward roles and owners:
    the keys [entity] and [agent] keep only their last assignment, and the
    two time stamps are the literal word ["timestamp"]. *)
Theorem fhir_render_depends_on (dp dp' : Datapoint.t) :
  DataElement.governance (Datapoint.dataelement dp)
  = DataElement.governance (Datapoint.dataelement dp') →
  DataSteward.name (Datapoint.steward dp)
  = DataSteward.name (Datapoint.steward dp') →
  DataElement.description_of_transformation (Datapoint.dataelement dp)
  = DataElement.description_of_transformation (Datapoint.dataelement dp') →
  render "fhir" dp = render "fhir" dp'.
Proof.
  intros Hg Hs Hd. unfold render. rewrite !decide_False, decide_True by done.
  unfold _format_provenance_fhir. cbn [setitem decide].
  by rewrite Hg, Hs, Hd.
Qed.

Lemma fhir_render_depends_on_witness :
  render "fhir" sample_datapoint
  = render "fhir"
      (Datapoint.mk (DataProvenance.mk 2 "2" "3" "good" "t2")
         (DataElement.mk "yz" None 2 (Some "v") 3 (Some "v") None None
            (Some 1) None (Some 1) None (Some 1))
         (DataStore.mk "Z") (DataStore.mk "Y")
         (Script.mk (Some "etl.py") (Some "v1") None)
         (DataSteward.mk (Some "Koch") (Some "Steward") None None)
         (DataOwner.mk (Some "A") None None None)).
Proof. by apply fhir_render_depends_on. Defined.

(** * The benchmark script *)

Lemma str_of_nat_inj n m : str_of_nat n = str_of_nat m → n = m.
Proof.
  unfold str_of_nat. intros Heq.
  assert (Hnn : ∀ k, Nat.to_uint k ≠ Decimal.Nil).
  { intros k Hk.
    pose proof (DecimalNat.Unsigned.to_of (Nat.to_uint k)) as Hto.
    rewrite DecimalNat.Unsigned.of_to, Hk in Hto. by cbn in Hto. }
  apply (f_equal DecimalString.NilZero.uint_of_string) in Heq.
  rewrite !DecimalString.NilZero.usu in Heq by apply Hnn.
  injection Heq as Heq. by apply DecimalNat.Unsigned.to_uint_inj.
Qed.

Lemma get_or_create_new `{EqDecision A} (tbl : list A) (row : A) :
  row ∉ tbl → (get_or_create tbl row).1.1 = tbl ++ [row].
Proof.
  intros Hnew%find_row_None. unfold get_or_create. by rewrite Hnew.
Qed.

(** A run of [make_provenance] calls with registered ids and pairwise
    distinct new events appends exactly these events. *)
Lemma steps_record self cs rows :
  Forall2 (records (list_of_dataelements self)) cs rows →
  NoDup (DataProvenance_rows (db self) ++ rows) →
  DataProvenance_rows (db (foldl step self cs))
  = DataProvenance_rows (db self) ++ rows.
Proof.
  revert self cs.
  induction rows as [|row rows IH]; intros self cs Hrec Hnd.
  - apply Forall2_nil_inv_r in Hrec as ->. by rewrite app_nil_r.
  - apply Forall2_cons_inv_r in Hrec as (c & cs' & Hc & Hcs & ->).
    destruct c as [| | | | |name sr dr q ts]; try done.
    destruct Hc as [Hreg Hrow]. simpl.
    destruct (make_provenance_registered self name sr dr q ts _ Hreg)
      as [self' Hm].
    rewrite Hm.
    apply make_provenance_frame in Hm as (pk & Hpk & ->).
    rewrite Hreg in Hpk. injection Hpk as <-. rewrite <- Hrow.
    assert (Hnew : row ∉ DataProvenance_rows (db self)).
    { apply NoDup_app in Hnd as (_ & Hdisj & _).
      intros Hin. apply (Hdisj row Hin). left. }
    rewrite IH.
    + cbn. rewrite (get_or_create_new _ _ Hnew). by rewrite <- app_assoc.
    + done.
    + cbn. rewrite (get_or_create_new _ _ Hnew). by rewrite <- app_assoc.
Qed.

Lemma testprovenance_registry :
  let reg := list_of_dataelements (foldl step init testprovenance_definitions) in
  reg !! "patid" = Some 1 ∧ reg !! "pulse" = Some 2
  ∧ reg !! "averagepulse" = Some 3 ∧ reg !! "syst_blood_pressure" = Some 4
  ∧ reg !! "diast_blood_pressure" = Some 5 ∧ reg !! "performer" = Some 6
  ∧ reg !! "date" = Some 7.
Proof. cbv zeta. repeat split; vm_compute; reflexivity. Qed.

Lemma testprovenance_records now ind :
  Forall2 (records (list_of_dataelements
                      (foldl step init testprovenance_definitions)))
    (testprovenance_events now ind) (testprovenance_rows now ind).
Proof.
  destruct testprovenance_registry as (H1 & H2 & H3 & H4 & H5 & H6 & H7).
  unfold testprovenance_events, testprovenance_rows, records. cbv zeta.
  do 7 (constructor; [split; [assumption|reflexivity]|]).
  constructor.
Qed.

Lemma testprovenance_rows_NoDup now (inds : list nat) :
  NoDup inds → NoDup (inds ≫= testprovenance_rows now).
Proof.
  intros Hnd. apply NoDup_bind; [| |done].
  - intros x1 x2 y _ _ Hy1 Hy2. apply str_of_nat_inj.
    assert (Hsrc : ∀ x, y ∈ testprovenance_rows now x →
                        DataProvenance.sourcereference y = str_of_nat x).
    { intros x Hy. unfold testprovenance_rows in Hy.
      repeat (apply elem_of_cons in Hy as [->|Hy]; [done|]).
      by apply elem_of_nil in Hy. }
    by rewrite <- (Hsrc x1 Hy1), <- (Hsrc x2 Hy2).
  - intros x _. apply (NoDup_fmap_1 DataProvenance.dataelement).
    unfold testprovenance_rows. cbn. apply (bool_decide_unpack _). by vm_compute.
Qed.

Lemma testprovenance_split now iterations :
  testprovenance empty_db now iterations
  = foldl step (foldl step init testprovenance_definitions)
      (seq 1 (iterations - 1) ≫= testprovenance_events now).
Proof. unfold testprovenance. by rewrite foldl_app. Qed.

Lemma Forall2_bind_same {A B C} (P : B → C → Prop) (f : A → list B)
    (g : A → list C) (l : list A) :
  (∀ x, Forall2 P (f x) (g x)) → Forall2 P (l ≫= f) (l ≫= g).
Proof.
  intros Hfg. induction l as [|x l IH]; csimpl; [constructor|].
  by apply Forall2_app.
Qed.

Lemma length_bind_const {A B} (f : A → list B) (c : nat) (l : list A) :
  (∀ x, length (f x) = c) → length (l ≫= f) = c * length l.
Proof.
  intros Hf. induction l as [|x l IH]; csimpl; [lia|].
  rewrite length_app, IH, Hf. lia.
Qed.

Lemma steps_make_provenance_frame self cs :
  Forall (λ c, is_make_provenance c = true) cs →
  DataOwner_rows (db (foldl step self cs)) = DataOwner_rows (db self)
  ∧ DataSteward_rows (db (foldl step self cs)) = DataSteward_rows (db self)
  ∧ DataGovernance_rows (db (foldl step self cs)) = DataGovernance_rows (db self)
  ∧ Script_rows (db (foldl step self cs)) = Script_rows (db self)
  ∧ DataStore_rows (db (foldl step self cs)) = DataStore_rows (db self)
  ∧ DataElement_rows (db (foldl step self cs)) = DataElement_rows (db self).
Proof.
  intros Hcs. revert self.
  induction Hcs as [|c cs Hc _ IH]; intros self; [done|]. simpl.
  destruct (IH (step self c)) as (-> & -> & -> & -> & -> & ->).
  destruct c; try discriminate Hc.
  destruct (step_make_provenance_frame self name sourcereference
              destinationreference quality timestamp)
    as (H1 & H2 & H3 & H4 & H5 & H6 & _).
  exact (conj H1 (conj H2 (conj H3 (conj H4 (conj H5 H6))))).
Qed.

Lemma testprovenance_loop_calls now (inds : list nat) :
  Forall (λ c, is_make_provenance c = true) (inds ≫= testprovenance_events now).
Proof.
  apply Forall_bind, Forall_forall. intros ind _.
  unfold testprovenance_events. by repeat constructor.
Qed.

Lemma testprovenance_event_rows now iterations :
  DataProvenance_rows (db (testprovenance empty_db now iterations))
  = seq 1 (iterations - 1) ≫= testprovenance_rows now.
Proof.
  rewrite testprovenance_split.
  set (defs := foldl step init testprovenance_definitions).
  assert (Hev0 : DataProvenance_rows (db defs) = []) by by vm_compute.
  rewrite (steps_record defs _ (seq 1 (iterations - 1) ≫= testprovenance_rows now)).
  - by rewrite Hev0.
  - apply Forall2_bind_same. intros ind. apply testprovenance_records.
  - rewrite Hev0. apply testprovenance_rows_NoDup, NoDup_seq.
Qed.

(** X17.  On a fresh database [testprovenance] with [iterations = n]
    records exactly [7 * (n - 1)] events, whatever the clock returns: the
    loop index runs from 1 to [n - 1], every id it uses is registered, and
    no two of its events coincide, since they differ in the data element
    or in the source reference.  With [n = 1] (or 0) no event is written.
    The seven definitions are stored once. *)
Theorem testprovenance_event_count now iterations :
  let self := testprovenance empty_db now iterations in
  DataProvenance_rows (db self)
  = seq 1 (iterations - 1) ≫= testprovenance_rows now
  ∧ length (DataProvenance_rows (db self)) = 7 * (iterations - 1)
  ∧ length (DataElement_rows (db self)) = 7.
Proof.
  cbv zeta. rewrite testprovenance_event_rows.
  split; [done|]. split.
  - rewrite (length_bind_const _ 7); [by rewrite length_seq|done].
  - rewrite testprovenance_split.
    destruct (steps_make_provenance_frame
                (foldl step init testprovenance_definitions)
                (seq 1 (iterations - 1) ≫= testprovenance_events now)
                (testprovenance_loop_calls _ _)) as (_&_&_&_&_& ->).
    vm_compute. reflexivity.
Qed.

Lemma event_coords_same_definitions d d' ev :
  DataStore_rows d' = DataStore_rows d →
  DataElement_rows d' = DataElement_rows d →
  event_coords d' ev = event_coords d ev.
Proof. unfold event_coords. by intros -> ->. Qed.

Lemma testprovenance_acyclic now iterations :
  acyclic (db (testprovenance empty_db now iterations)).
Proof.
  apply (ranked_acyclic benchmark_rank). unfold ranked_by.
  apply forallb_forall. intros ev Hin%list_elem_of_In.
  rewrite testprovenance_event_rows in Hin.
  apply list_elem_of_bind in Hin as (ind & Hin & _).
  rewrite testprovenance_split.
  destruct (steps_make_provenance_frame
              (foldl step init testprovenance_definitions)
              (seq 1 (iterations - 1) ≫= testprovenance_events now)
              (testprovenance_loop_calls _ _)) as (_&_&_&_& Hst & Hel).
  rewrite (event_coords_same_definitions _ _ _ Hst Hel).
  unfold testprovenance_rows in Hin.
  clear Hst Hel.
  repeat (apply elem_of_cons in Hin as [->|Hin]; [vm_compute; reflexivity|]).
  apply elem_of_nil in Hin. destruct Hin.
Qed.

(** X18.  The data of the benchmark flows one way, from the staging store
    to the warehouse and from the warehouse to the averages, so the
    database that [testprovenance] writes is acyclic for every number of
    iterations and every clock, and every lineage query on it returns,
    with any bound on the recursion depth above the number of its
    events. *)
Theorem testprovenance_lineage_returns now iterations ds v r format top fuel :
  7 * (iterations - 1) < fuel →
  acyclic (db (testprovenance empty_db now iterations))
  ∧ is_Some (get_provenance fuel (testprovenance empty_db now iterations)
               ds v r format top).
Proof.
  intros Hfuel. split; [apply testprovenance_acyclic|].
  apply get_provenance_acyclic; [apply testprovenance_acyclic|].
  rewrite testprovenance_event_rows, (length_bind_const _ 7);
    [by rewrite length_seq|done].
Qed.

Lemma testprovenance_lineage_returns_witness :
  is_Some (get_provenance 15 (testprovenance empty_db (λ _, "2023-01-23") 3)
             "dwh_averages" (Some "avg_pulse") (str_of_nat (100 * 100 + 1))
             "logtext" true).
Proof.
  refine (proj2 (testprovenance_lineage_returns (λ _, "2023-01-23") 3
                   "dwh_averages" (Some "avg_pulse") (str_of_nat (100 * 100 + 1))
                   "logtext" true 15 _)).
  simpl. lia.
Defined.
